(** * statefuld: the ephemeral class / branch / instance / property store

    A shallow embedding of [statefuld.service.ts] (the static registry with
    [registerClass], [switch], [reassign], [stash] and [stashByKey]) and the
    properties of it that the specification states.

    Modelling conventions.
    - A JavaScript [Map] is a [gmap]; the [Set] of tracked property names is
      the list of its elements in iteration (insertion) order.
    - The registry is mutable static state: every operation is a computation
      in the monad [M], which threads the [Registry] and may complete
      abruptly with a JavaScript exception.  The state reached when an
      exception is raised is kept, as it is in JavaScript.
    - [reassign] writes into the object it is given; the embedding returns
      the object as it is after the call next to the boolean result.
    - An object is the constructor name and the properties that reads find
      on it; accessors, frozen objects and the layout of prototype chains
      are outside the model.  The source callback of a class is a function
      of its argument.
    - Console output is not modelled. *)

From stdpp Require Import base option list strings gmap.

Open Scope string_scope.

(** ** Values and objects *)

(** The values a property can hold.  Numbers are restricted to integers and
    objects stored as property values are opaque references. *)
Inductive value : Type :=
  | VUndefined
  | VNull
  | VBool (b : bool)
  | VNum (n : Z)
  | VStr (s : string)
  | VRef (l : positive).

#[global] Instance value_eq_dec : EqDecision value.
Proof. solve_decision. Defined.

Definition value_enc (v : value) : unit + unit + bool + Z + string + positive :=
  match v with
  | VUndefined => inl (inl (inl (inl (inl ()))))
  | VNull => inl (inl (inl (inl (inr ()))))
  | VBool b => inl (inl (inl (inr b)))
  | VNum n => inl (inl (inr n))
  | VStr s => inl (inr s)
  | VRef l => inr l
  end.

Definition value_dec (x : unit + unit + bool + Z + string + positive) : value :=
  match x with
  | inl (inl (inl (inl (inl _)))) => VUndefined
  | inl (inl (inl (inl (inr _)))) => VNull
  | inl (inl (inl (inr b))) => VBool b
  | inl (inl (inr n)) => VNum n
  | inl (inr s) => VStr s
  | inr l => VRef l
  end.

#[global] Instance value_countable : Countable value :=
  inj_countable' value_enc value_dec
    (λ v, match v with
          | VUndefined | VNull | VBool _ | VNum _ | VStr _ | VRef _ => eq_refl
          end).

(** [v === undefined] *)
Definition is_undefined (v : value) : bool :=
  match v with VUndefined => true | _ => false end.

(** An object at the boundary of the registry: the name of its constructor
    ([obj.constructor.name]) and the properties that a read [obj[p]] finds. *)
Record object : Type := mkObject {
  constructor_name : string;
  props : gmap string value;
}.

(** What a caller can pass where the source expects an object: TypeScript
    does not keep [undefined] and [null] out at run time. *)
Inductive subject : Type :=
  | SUndefined
  | SNull
  | Obj (o : object).

(** ** The store *)

(** 4. InstanceProps = Map<string, any>
    3. SetOfInstances = Map<string, InstanceProps>; the key is whatever value
       the key property holds, compared as [Map] compares keys.
    2. Branches = Map<string, SetOfInstances> *)
Abbreviation InstanceProps := (gmap string value).
Abbreviation SetOfInstances := (gmap value (gmap string value)).
Abbreviation Branches := (gmap string (gmap value (gmap string value))).

(** 1. ClassNode.  The [getCurrentBranch] closure handed to the constructor
    is [() => this.currentBranch]: it reads the registry's current branch
    when it is called, so it is not a field here; [getInstance] and
    [setInstance] below read the branch from the state. *)
Record ClassNode : Type := mkClassNode {
  dProps : list string;
  branchNodes : Branches;
  keyProp : string;
  fnGetSourceInstanceByKey : option (string → subject);
}.

(** The constructor: [this.keyProp = keyProp !== undefined ? keyProp : 'id']. *)
Definition new_ClassNode (dprops : list string) (branches : Branches)
    (keyprop : option string) (fn : option (string → subject)) : ClassNode :=
  {| dProps := dprops;
     branchNodes := branches;
     keyProp := match keyprop with Some k => k | None => "id" end;
     fnGetSourceInstanceByKey := fn |}.

(** 0. The storage itself, and the static fields of [statefuld]. *)
Record Registry : Type := mkRegistry {
  storage : gmap string ClassNode;
  currentBranch : string;
}.

(** [storage = new Map()], [currentBranch = '*']. *)
Definition initial : Registry :=
  {| storage := ∅; currentBranch := "*" |}.

(** ** The monad of registry operations *)

Inductive exn : Type :=
  | TypeError.

Inductive completion (A : Type) : Type :=
  | Normal (a : A)
  | Abrupt (e : exn).
Arguments Normal {A} a.
Arguments Abrupt {A} e.

Definition M (A : Type) : Type := Registry → completion A * Registry.

Definition ret {A : Type} (a : A) : M A := λ st, (Normal a, st).

Definition bind {A B : Type} (m : M A) (f : A → M B) : M B := λ st,
  match m st with
  | (Normal a, st') => f a st'
  | (Abrupt e, st') => (Abrupt e, st')
  end.

Notation "'let*' x ':=' m 'in' k" := (bind m (λ x, k))
  (at level 10, x name, m at level 100, k at level 200,
   format "'[v' 'let*'  x  :=  m  'in' '/' k ']'").

Definition throw {A : Type} (e : exn) : M A := λ st, (Abrupt e, st).
Definition get_state : M Registry := λ st, (Normal st, st).
Definition modify_state (f : Registry → Registry) : M unit := λ st, (Normal (), f st).

(** [Set.prototype.forEach] over the elements in iteration order. *)
Fixpoint forEach {A : Type} (l : list A) (f : A → M unit) : M unit :=
  match l with
  | [] => ret ()
  | x :: l' => let* _ := f x in forEach l' f
  end.

(** The same loop when its body updates an object of the caller. *)
Fixpoint forEach_on {A T : Type} (l : list A) (f : T → A → M T) (t : T) : M T :=
  match l with
  | [] => ret t
  | x :: l' => let* t' := f t x in forEach_on l' f t'
  end.

(** ** Property access on the caller's objects *)

(** [obj[p]]: a [TypeError] on [undefined] and [null], [undefined] for a
    property the object does not have. *)
Definition get_prop (obj : subject) (p : string) : M value :=
  match obj with
  | Obj o => ret (default VUndefined (props o !! p))
  | _ => throw TypeError
  end.

(** [obj[p] = v] *)
Definition set_prop (obj : subject) (p : string) (v : value) : M subject :=
  match obj with
  | Obj o => ret (Obj {| constructor_name := constructor_name o;
                          props := <[p := v]> (props o) |})
  | _ => throw TypeError
  end.

(** [obj.constructor.name] *)
Definition get_constructor_name (obj : subject) : M string :=
  match obj with
  | Obj o => ret (constructor_name o)
  | _ => throw TypeError
  end.

(** ** References into the store

    [storage.get(className)] yields a reference to a node and
    [classNode.getInstance(id)] a reference to a property map; both are
    mutated in place by [stash].  A node is referred to by the key it has in
    [storage], a property map by its path. *)

Record InstanceRef : Type := mkInstanceRef {
  ref_class : string;
  ref_branch : string;
  ref_id : value;
}.

Definition with_branchNodes (f : Branches → Branches) (cn : ClassNode) : ClassNode :=
  {| dProps := dProps cn;
     branchNodes := f (branchNodes cn);
     keyProp := keyProp cn;
     fnGetSourceInstanceByKey := fnGetSourceInstanceByKey cn |}.

Definition with_storage (f : gmap string ClassNode → gmap string ClassNode)
    (st : Registry) : Registry :=
  {| storage := f (storage st); currentBranch := currentBranch st |}.

(** [this.currentBranch] *)
Definition get_currentBranch : M string :=
  let* st := get_state in ret (currentBranch st).

(** [this.currentBranch = branch] *)
Definition set_currentBranch (branch : string) : M unit :=
  modify_state (λ st, {| storage := storage st; currentBranch := branch |}).

(** [this.storage.has(className)] *)
Definition storage_has (className : string) : M bool :=
  let* st := get_state in
  ret (match storage st !! className with Some _ => true | None => false end).

(** [this.storage.get(className)], read where the source reads a field of
    the result: on [undefined] that read is a [TypeError]. *)
Definition storage_get (className : string) : M ClassNode :=
  let* st := get_state in
  match storage st !! className with
  | Some cn => ret cn
  | None => throw TypeError
  end.

(** [this.storage.set(className, classNode)] *)
Definition storage_set (className : string) (cn : ClassNode) : M unit :=
  modify_state (with_storage <[className := cn]>).

(** [classNode.branchNodes.has(branch)] *)
Definition branchNodes_has (className branch : string) : M bool :=
  let* cn := storage_get className in
  ret (match branchNodes cn !! branch with Some _ => true | None => false end).

(** [classNode.branchNodes.set(branch, pool)] *)
Definition branchNodes_set (className branch : string) (pool : SetOfInstances) : M unit :=
  let* _ := storage_get className in
  modify_state (with_storage (alter (with_branchNodes <[branch := pool]>) className)).

(** [getInstance = (id) => this.branchNodes.get(this.getCurrentBranch()).get(id)]:
    [None] is [undefined]; a [TypeError] when the current branch has no pool. *)
Definition getInstance (className : string) (id : value) : M (option InstanceRef) :=
  let* cn := storage_get className in
  let* cur := get_currentBranch in
  match branchNodes cn !! cur with
  | Some pool =>
      ret (match pool !! id with
            | Some _ => Some {| ref_class := className; ref_branch := cur; ref_id := id |}
            | None => None
            end)
  | None => throw TypeError
  end.

(** [setInstance = (id, map) => this.branchNodes.get(this.getCurrentBranch()).set(id, map)] *)
Definition setInstance (className : string) (id : value) (map : InstanceProps) : M unit :=
  let* cn := storage_get className in
  let* cur := get_currentBranch in
  match branchNodes cn !! cur with
  | Some _ =>
      modify_state (with_storage
        (alter (with_branchNodes (alter <[id := map]> cur)) className))
  | None => throw TypeError
  end.

(** The property map a reference points to. *)
Definition deref (r : InstanceRef) (st : Registry) : option InstanceProps :=
  cn ← storage st !! ref_class r;
  pool ← branchNodes cn !! ref_branch r;
  pool !! ref_id r.

(** [instance.has(prop)], [instance.get(prop)] and [instance.set(prop, v)];
    on [undefined] each is a [TypeError]. *)
Definition instance_has (instance : option InstanceRef) (prop : string) : M bool :=
  let* st := get_state in
  match instance ≫= λ r, deref r st with
  | Some m => ret (match m !! prop with Some _ => true | None => false end)
  | None => throw TypeError
  end.

Definition instance_get (instance : option InstanceRef) (prop : string) : M value :=
  let* st := get_state in
  match instance ≫= λ r, deref r st with
  | Some m => ret (default VUndefined (m !! prop))
  | None => throw TypeError
  end.

Definition instance_set (instance : option InstanceRef) (prop : string) (v : value) : M unit :=
  let* st := get_state in
  match instance with
  | Some r =>
      match deref r st with
      | Some _ =>
          modify_state (with_storage
            (alter (with_branchNodes
                      (alter (alter <[prop := v]> (ref_id r)) (ref_branch r)))
                   (ref_class r)))
      | None => throw TypeError
      end
  | None => throw TypeError
  end.

(** ** The operations of [statefuld] *)

(** The first argument of [registerClass]: [string | T]. *)
Inductive classArg : Type :=
  | ClassName (name : string)
  | ClassOf (obj : subject).

(** Its second argument: [Array<string> | Set<string>], or [undefined].  A
    [Set] is given by its elements in iteration order. *)
Inductive propsArg : Type :=
  | PropsUndefined
  | PropsArray (a : list string)
  | PropsSet (s : list string).

(** [dProps[0]]: the first element of an array; a [Set] has no indexed
    properties, so on a [Set] the read is [undefined] ([None]). *)
Definition index0 (d : propsArg) : option string :=
  match d with
  | PropsArray a => head a
  | PropsSet _ => None
  | PropsUndefined => None
  end.

(** [Set.prototype.add] and [new Set(array)]: first occurrences, in order. *)
Definition Set_add (s : list string) (x : string) : list string :=
  if decide (x ∈ s) then s else s ++ [x].

Definition new_Set (a : list string) : list string := foldl Set_add [] a.

Definition registerClass (subjectClass : classArg) (dprops : propsArg)
    (keyprop : option string) (fn : option (string → subject)) : M bool :=
  let* className :=
    match subjectClass with
    | ClassName name => ret name
    | ClassOf obj => get_constructor_name obj
    end in
  let* registered := storage_has className in
  if registered then ret false else
  if match dprops with
     | PropsUndefined => true
     | _ => match index0 dprops with None => true | Some _ => false end
     end
  then ret false else
  let classNode :=
    new_ClassNode
      match dprops with
      | PropsArray a => new_Set a
      | PropsSet s => s
      | PropsUndefined => []
      end
      ∅ keyprop fn in
  let* _ := storage_set className classNode in
  ret true.

(** [switch(branch)] with [branch] defined; [switch] below calls it for
    [this.switch('*')] too, the one recursive call of the source. *)
Definition switch_to (branch : string) : M bool :=
  let* cur := get_currentBranch in
  if decide (branch = cur) then ret true else
  let* _ := set_currentBranch branch in
  ret true.

Definition switch (branch : option string) : M bool :=
  match branch with
  | None =>
      let* cur := get_currentBranch in
      if decide (cur = "*") then ret true else switch_to "*"
  | Some b => switch_to b
  end.

(** [reassign(targetObj, forcedClassName?, forcedId?)]: the boolean result
    and [targetObj] as it is after the call.  The source also tests
    [className === undefined]; both of its origins are strings here. *)
Definition reassign (targetObj : subject) (forcedClassName forcedId : option string)
    : M (bool * subject) :=
  let* className :=
    match forcedClassName with
    | None => get_constructor_name targetObj
    | Some c => ret c
    end in
  let* registered := storage_has className in
  if negb registered then ret (false, targetObj) else
  let* classNode := storage_get className in
  let* id :=
    match forcedId with
    | None => get_prop targetObj (keyProp classNode)
    | Some i => ret (VStr i)
    end in
  if is_undefined id then ret (false, targetObj) else
  let* cur := get_currentBranch in
  let* hasBranch := branchNodes_has className cur in
  if negb hasBranch then ret (false, targetObj) else
  let* found := getInstance className id in
  if found is None then ret (false, targetObj) else
  let* instance := getInstance className id in
  let* target := forEach_on (dProps classNode)
    (λ target prop,
       let* has := instance_has instance prop in
       if has then let* v := instance_get instance prop in set_prop target prop v
       else ret target)
    targetObj in
  ret (true, target).

(** [stash(payloadObj, forcedClassName?, forcedId?)] *)
Definition stash (payloadObj : subject) (forcedClassName forcedId : option string)
    : M bool :=
  let* className :=
    match forcedClassName with
    | None => get_constructor_name payloadObj
    | Some c => ret c
    end in
  let* registered := storage_has className in
  if negb registered then ret false else
  let* classNode := storage_get className in
  let* id :=
    match forcedId with
    | None => get_prop payloadObj (keyProp classNode)
    | Some i => ret (VStr i)
    end in
  if is_undefined id then ret false else
  let* cur := get_currentBranch in
  let* hasBranch := branchNodes_has className cur in
  let* _ := (if negb hasBranch then branchNodes_set className cur ∅ else ret ()) in
  let* found := getInstance className id in
  let* _ := (if found is None then setInstance className id ∅ else ret ()) in
  let* instance := getInstance className id in
  let* _ := forEach (dProps classNode)
    (λ prop,
       let* v := get_prop payloadObj prop in
       if negb (is_undefined v) then instance_set instance prop v else ret ()) in
  ret true.

(** [fnGetSourceInstanceByKey(id)]: calling [undefined] is a [TypeError].
    The callback is taken to return without touching the registry. *)
Definition call_fnGetSourceInstanceByKey (fn : option (string → subject))
    (id : string) : M subject :=
  match fn with
  | Some f => ret (f id)
  | None => throw TypeError
  end.

(** [stashByKey(className, id, forcedPayload?)]: what the call evaluates
    to, as a value; the source has [return false] on one path and no
    [return] on the other. *)
Definition stashByKey (className id : string) (forcedPayload : subject) : M value :=
  let* registered := storage_has className in
  if negb registered then ret (VBool false) else
  let* classNode := storage_get className in
  let* payload :=
    match forcedPayload with
    | SUndefined => call_fnGetSourceInstanceByKey (fnGetSourceInstanceByKey classNode) id
    | _ => ret forcedPayload
    end in
  let* _ := stash payload (Some className) (Some id) in
  ret VUndefined.

(** ** Object literals *)

Definition obj_of (name : string) (fields : list (string * value)) : object :=
  {| constructor_name := name; props := list_to_map fields |}.

(** ** What the store holds and what the loops compute

    The functions of this part describe results; [stash_run] and
    [reassign_run] below prove that the operations compute them. *)

(** The property map stored for an instance of a class on a branch. *)
Definition lookup_record (st : Registry) (c b : string) (i : value)
    : option InstanceProps :=
  deref {| ref_class := c; ref_branch := b; ref_id := i |} st.

(** [obj[p]] on an object, as a value. *)
Definition prop_of (o : object) (p : string) : value :=
  default VUndefined (props o !! p).

(** The class name and the instance id that [stash] and [reassign] work
    with, for an object [o]. *)
Definition resolved_class (o : object) (forcedClassName : option string) : string :=
  match forcedClassName with Some c => c | None => constructor_name o end.

Definition resolved_id (o : object) (cn : ClassNode) (forcedId : option string) : value :=
  match forcedId with Some i => VStr i | None => prop_of o (keyProp cn) end.

(** One round of the loop of [stash] on the property map, and the loop. *)
Definition stash_prop (o : object) (m : InstanceProps) (p : string) : InstanceProps :=
  if is_undefined (prop_of o p) then m else <[p := prop_of o p]> m.

Definition stash_props (o : object) (l : list string) (m : InstanceProps)
    : InstanceProps :=
  foldl (stash_prop o) m l.

(** One round of the loop of [reassign] on the target, and the loop. *)
Definition reassign_prop (m : InstanceProps) (o : object) (p : string) : object :=
  match m !! p with
  | Some v => {| constructor_name := constructor_name o; props := <[p := v]> (props o) |}
  | None => o
  end.

Definition reassign_props (m : InstanceProps) (l : list string) (o : object) : object :=
  foldl (reassign_prop m) o l.

(** The node of class [c] with its branches changed by [F]. *)
Definition on_branches (c : string) (F : Branches → Branches) (st : Registry)
    : Registry :=
  with_storage (alter (with_branchNodes F) c) st.

(** What a [stash] of [o] under id [i] on branch [b] makes of the branches
    of a class whose tracked properties are [l]. *)
Definition stash_branches (o : object) (l : list string) (b : string) (i : value)
    (bn : Branches) : Branches :=
  <[b := <[i := stash_props o l (default ∅ (bn !! b ≫= λ pool, pool !! i))]>
           (default ∅ (bn !! b))]> bn.

(** A registry with the node of class [c] replaced. *)
Definition set_node (c : string) (cn : ClassNode) (st : Registry) : Registry :=
  with_storage <[c := cn]> st.

(** The node of a class after a [stash] of [o] under id [i] on branch [b]. *)
Definition stash_node (o : object) (b : string) (i : value) (cn : ClassNode) : ClassNode :=
  with_branchNodes (stash_branches o (dProps cn) b i) cn.

(** The result of [reassign] on an object, case by case. *)
Definition reassign_result (st : Registry) (o : object) (fc fid : option string)
    : bool * subject :=
  match storage st !! resolved_class o fc with
  | None => (false, Obj o)
  | Some cn =>
      if is_undefined (resolved_id o cn fid) then (false, Obj o) else
      match lookup_record st (resolved_class o fc) (currentBranch st)
              (resolved_id o cn fid) with
      | None => (false, Obj o)
      | Some m => (true, Obj (reassign_props m (dProps cn) o))
      end
  end.

(** The registry with the current branch set to [b]. *)
Definition switched (b : string) (st : Registry) : Registry :=
  {| storage := storage st; currentBranch := b |}.

(** A computation that leaves the registry as it found it, whether it
    returns or raises. *)
Definition read_only {A : Type} (m : M A) : Prop := ∀ st, (m st).2 = st.

Create HintDb read_only.

(** ** The objects of the scenarios in the specification *)

(** [{id:"x", a:1, b:2}], [{id:"x", a:1}] and [{id:"x"}], instances of a
    class named [k]. *)
Definition payload_xab (k : string) : object :=
  obj_of k [("id", VStr "x"); ("a", VNum 1); ("b", VNum 2)].

Definition payload_xa (k : string) : object := obj_of k [("id", VStr "x"); ("a", VNum 1)].

Definition target_x (k : string) : object := obj_of k [("id", VStr "x")].

(** [{id:"x", a:0, b:2}], [{id:"x", a:1, z:99}] and [{id:"x", z:0}]. *)
Definition payload_xa0b2 (k : string) : object :=
  obj_of k [("id", VStr "x"); ("a", VNum 0); ("b", VNum 2)].

Definition payload_xaz (k : string) : object :=
  obj_of k [("id", VStr "x"); ("a", VNum 1); ("z", VNum 99)].

Definition target_xz (k : string) : object :=
  obj_of k [("id", VStr "x"); ("z", VNum 0)].

(** An object that has none of the properties [a] and [b]. *)
Definition empty_payload : object := obj_of "Object" [("c", VNum 7)].

(** A registry in which the class [Hero] has just been registered with the
    tracked properties [a] and [b], and the node the registration makes. *)
Definition hero_node : ClassNode := new_ClassNode (new_Set ["a"; "b"]) ∅ None None.

Definition hero_registry : Registry :=
  (registerClass (ClassName "Hero") (PropsArray ["a"; "b"]) None None initial).2.

(** The same with [a] as the only tracked property. *)
Definition hero_node_a : ClassNode := new_ClassNode (new_Set ["a"]) ∅ None None.

Definition hero_registry_a : Registry :=
  (registerClass (ClassName "Hero") (PropsArray ["a"]) None None initial).2.

(** ** More descriptions of results *)

(** The name under which [registerClass] files the class, when it gets
    that far. *)
Definition class_name_of (subjectClass : classArg) : option string :=
  match subjectClass with
  | ClassName name => Some name
  | ClassOf (Obj o) => Some (constructor_name o)
  | ClassOf _ => None
  end.

(** The node of a class once the current branch has a pool and the pool a
    record for id [i]: what [stash] makes sure of before its loop. *)
Definition ensured_node (b : string) (i : value) (cn : ClassNode) : ClassNode :=
  with_branchNodes
    (λ bn, <[b := <[i := default ∅ (bn !! b ≫= λ pool, pool !! i)]>
                   (default ∅ (bn !! b))]> bn)
    cn.

(** [undefined] or [null]. *)
Definition is_nullish (t : subject) : bool :=
  match t with Obj _ => false | _ => true end.

(** The object that [stashByKey] hands to [stash]; [None] when it has to
    call a callback that is not there. *)
Definition by_key_payload (cn : ClassNode) (id : string) (forcedPayload : subject)
    : option subject :=
  match forcedPayload with
  | SUndefined => (λ f, f id) <$> fnGetSourceInstanceByKey cn
  | _ => Some forcedPayload
  end.

(** ** Sequences of calls *)

(** A call of one of the five static methods, and the registry it leaves,
    whether it returns or raises. *)
Inductive call : Type :=
  | CallRegisterClass (subjectClass : classArg) (dprops : propsArg)
      (keyprop : option string) (fn : option (string → subject))
  | CallSwitch (branch : option string)
  | CallReassign (targetObj : subject) (forcedClassName forcedId : option string)
  | CallStash (payloadObj : subject) (forcedClassName forcedId : option string)
  | CallStashByKey (className id : string) (forcedPayload : subject).

Definition after (c : call) (st : Registry) : Registry :=
  match c with
  | CallRegisterClass subjectClass dprops keyprop fn =>
      (registerClass subjectClass dprops keyprop fn st).2
  | CallSwitch branch => (switch branch st).2
  | CallReassign targetObj fc fid => (reassign targetObj fc fid st).2
  | CallStash payloadObj fc fid => (stash payloadObj fc fid st).2
  | CallStashByKey className id forcedPayload => (stashByKey className id forcedPayload st).2
  end.

(** The registries that sequences of calls reach from the initial one. *)
Inductive reachable : Registry → Prop :=
  | reachable_initial : reachable initial
  | reachable_after (c : call) (st : Registry) : reachable st → reachable (after c st).

(** The shape of a registry that calls keep: the tracked properties of a
    class are a non-empty list without repetitions, and a stored entry is a
    tracked property with a defined value, in a record under a defined id. *)
Definition well_formed (st : Registry) : Prop :=
  ∀ c cn, storage st !! c = Some cn →
    dProps cn ≠ [] ∧ NoDup (dProps cn) ∧
    ∀ b pool i m, branchNodes cn !! b = Some pool → pool !! i = Some m →
      i ≠ VUndefined ∧
      ∀ p v, m !! p = Some v → p ∈ dProps cn ∧ v ≠ VUndefined.


(** ** The decorator and the base class *)

(** [StatefuldConfig] *)
Module Config.
Record t : Type := mk {
  dProps : list string;
  keyProp : option string;
  forceClass : option string;
  fnGetSourceInstanceByKey : option (string → subject);
}.
End Config.


(** The three constants that the class returned by [MixinStatefuld] closes
    over. *)
Record Mixin : Type := mkMixin {
  _dProps : list string;
  _keyProp : string;
  _fnGetSourceInstanceByKey : option (string → subject);
}.


Definition watchdog : string := "__chkNgLifecycle_iSodZqRKwO".

(** [this[p] = v] on an object. *)
Definition set_field (this : object) (p : string) (v : value) : object :=
  {| constructor_name := constructor_name this; props := <[p := v]> (props this) |}.


(** The constructor of the returned class, on [this] as [super(...args)]
    leaves it: the field [__chkNgLifecycle_iSodZqRKwO = 0], then
    [statefuld.registerClass(this.constructor.name, _dProps, _keyProp, _fn)]. *)
Definition Mixin_constructor (mx : Mixin) (this : object) : M object :=
  let this := set_field this watchdog (VNum 0) in
  let* _ := registerClass (ClassName (constructor_name this)) (PropsArray (_dProps mx))
              (Some (_keyProp mx)) (_fnGetSourceInstanceByKey mx) in
  ret this.



Definition statefuldSwitch (branch : option string) : M bool := switch branch.



(** ** More objects and registries for examples *)

(** The registry [hero_registry] after a stash of [{id:"x", a:1, b:2}]. *)
Definition hero_stashed : Registry :=
  (stash (Obj (payload_xab "Hero")) None None hero_registry).2.

(** What [MixinStatefuld] makes of the configuration [["a", "b"]], and a
    component of a class named [Hero] with its key and a value of [a]. *)
Definition hero_mixin : Mixin :=
  {| _dProps := ["a"; "b"]; _keyProp := "statefuldKey";
     _fnGetSourceInstanceByKey := None |}.

Definition hero_component (key : string) (a : Z) : object :=
  obj_of "Hero" [("statefuldKey", VStr key); ("a", VNum a)].

(** * Properties *)

(** ** Values and the two loops, on maps *)

Lemma is_undefined_spec (v : value) : is_undefined v = true ↔ v = VUndefined.
Proof. destruct v; simpl; split; congruence. Qed.

Lemma is_undefined_false (v : value) : is_undefined v = false ↔ v ≠ VUndefined.
Proof. destruct v; simpl; split; congruence. Qed.

Lemma stash_prop_lookup (o : object) (m : InstanceProps) (q p : string) :
  stash_prop o m q !! p =
    if decide (p = q ∧ prop_of o p ≠ VUndefined) then Some (prop_of o p) else m !! p.
Proof.
  unfold stash_prop. destruct (is_undefined (prop_of o q)) eqn:Hu.
  - apply is_undefined_spec in Hu.
    destruct (decide _) as [[-> H]|_]; [done|done].
  - apply is_undefined_false in Hu.
    destruct (decide (p = q)) as [->|Hne].
    + rewrite lookup_insert_eq. by rewrite decide_True.
    + rewrite lookup_insert_ne by done. rewrite decide_False; [done|]. by intros [? _].
Qed.

Lemma stash_props_lookup (o : object) (l : list string) (m : InstanceProps) (p : string) :
  stash_props o l m !! p =
    if decide (p ∈ l ∧ prop_of o p ≠ VUndefined) then Some (prop_of o p) else m !! p.
Proof.
  revert m. induction l as [|q l IH]; intros m.
  - rewrite decide_False; [done|]. intros [H _]. by apply elem_of_nil in H.
  - change (stash_props o (q :: l) m) with (stash_props o l (stash_prop o m q)).
    rewrite IH, stash_prop_lookup.
    destruct (decide (p ∈ l ∧ _)) as [[Hl Hd]|Hn].
    + rewrite decide_True; [done|]. split; [set_solver|done].
    + destruct (decide (p = q ∧ _)) as [[-> Hd]|Hn'].
      * rewrite decide_True; [done|]. split; [set_solver|done].
      * rewrite decide_False; [done|]. intros [Hin Hd].
        apply elem_of_cons in Hin as [->|Hin]; [by apply Hn'|by apply Hn].
Qed.

Lemma reassign_prop_constructor (m : InstanceProps) (o : object) (p : string) :
  constructor_name (reassign_prop m o p) = constructor_name o.
Proof. unfold reassign_prop. by destruct (m !! p). Qed.

Lemma reassign_prop_lookup (m : InstanceProps) (o : object) (q p : string) :
  props (reassign_prop m o q) !! p =
    if decide (p = q ∧ is_Some (m !! p)) then m !! p else props o !! p.
Proof.
  unfold reassign_prop. destruct (m !! q) as [v|] eqn:Hq; simpl.
  - destruct (decide (p = q)) as [->|Hne].
    + rewrite lookup_insert_eq, decide_True; [done|]. split; [done|]. by eexists.
    + rewrite lookup_insert_ne by done. rewrite decide_False; [done|]. by intros [? _].
  - rewrite decide_False; [done|]. intros [-> [v Hv]]. congruence.
Qed.

Lemma reassign_props_constructor (m : InstanceProps) (l : list string) (o : object) :
  constructor_name (reassign_props m l o) = constructor_name o.
Proof.
  revert o. induction l as [|q l IH]; intros o; [done|].
  change (reassign_props m (q :: l) o) with (reassign_props m l (reassign_prop m o q)).
  by rewrite IH, reassign_prop_constructor.
Qed.

Lemma reassign_props_lookup (m : InstanceProps) (l : list string) (o : object) (p : string) :
  props (reassign_props m l o) !! p =
    if decide (p ∈ l ∧ is_Some (m !! p)) then m !! p else props o !! p.
Proof.
  revert o. induction l as [|q l IH]; intros o.
  - rewrite decide_False; [done|]. intros [H _]. by apply elem_of_nil in H.
  - change (reassign_props m (q :: l) o) with (reassign_props m l (reassign_prop m o q)).
    rewrite IH, reassign_prop_lookup.
    destruct (decide (p ∈ l ∧ _)) as [[Hl Hd]|Hn].
    + rewrite decide_True; [done|]. split; [set_solver|done].
    + destruct (decide (p = q ∧ _)) as [[-> Hd]|Hn'].
      * rewrite decide_True; [done|]. split; [set_solver|done].
      * rewrite decide_False; [done|]. intros [Hin Hd].
        apply elem_of_cons in Hin as [->|Hin]; [by apply Hn'|by apply Hn].
Qed.

Lemma object_eq (o1 o2 : object) :
  constructor_name o1 = constructor_name o2 → props o1 = props o2 → o1 = o2.
Proof. destruct o1, o2; simpl; congruence. Qed.

Lemma resolved_class_default (o : object) (fc : option string) :
  resolved_class o fc = default (constructor_name o) fc.
Proof. by destruct fc. Qed.

(** ** Replacing a node of the store *)

Lemma ClassNode_eta (cn : ClassNode) :
  {| dProps := dProps cn; branchNodes := branchNodes cn; keyProp := keyProp cn;
     fnGetSourceInstanceByKey := fnGetSourceInstanceByKey cn |} = cn.
Proof. by destruct cn. Qed.

Lemma set_node_id (c : string) (cn : ClassNode) (st : Registry) :
  storage st !! c = Some cn → set_node c cn st = st.
Proof.
  intros H. destruct st as [s b]. unfold set_node, with_storage. simpl in *.
  by rewrite insert_id.
Qed.

Lemma set_node_set_node (c : string) (cn cn' : ClassNode) (st : Registry) :
  set_node c cn (set_node c cn' st) = set_node c cn st.
Proof. unfold set_node, with_storage. simpl. by rewrite insert_insert_eq. Qed.

Lemma set_node_lookup (c : string) (cn : ClassNode) (st : Registry) :
  storage (set_node c cn st) !! c = Some cn.
Proof. apply lookup_insert_eq. Qed.

Lemma alter_as_insert `{Countable K} {A} (f : A → A) (m : gmap K A) (k : K) (x : A) :
  m !! k = Some x → alter f k m = <[k := f x]> m.
Proof.
  intros Hk. apply map_eq. intros j. rewrite lookup_alter, lookup_insert.
  case_decide; [by rewrite Hk|done].
Qed.

Lemma on_branches_set_node (c : string) (F : Branches → Branches) (cn : ClassNode)
    (st : Registry) :
  storage st !! c = Some cn →
  on_branches c F st = set_node c (with_branchNodes F cn) st.
Proof.
  intros Hc. unfold on_branches, set_node, with_storage.
  by rewrite (alter_as_insert _ _ _ _ Hc).
Qed.

Lemma lookup_record_set_node (c : string) (cn' : ClassNode) (st : Registry)
    (c' b' : string) (i' : value) :
  lookup_record (set_node c cn' st) c' b' i' =
    if decide (c' = c) then branchNodes cn' !! b' ≫= λ pool, pool !! i'
    else lookup_record st c' b' i'.
Proof.
  unfold lookup_record, deref, set_node, with_storage. cbn.
  destruct (decide (c' = c)) as [->|Hne].
  - by rewrite lookup_insert_eq.
  - by rewrite lookup_insert_ne.
Qed.

Lemma lookup_record_stash (st : Registry) (c : string) (cn : ClassNode) (o : object)
    (b : string) (i : value) (c' b' : string) (i' : value) :
  storage st !! c = Some cn →
  lookup_record (set_node c (stash_node o b i cn) st) c' b' i' =
    if decide (c' = c ∧ b' = b ∧ i' = i)
    then Some (stash_props o (dProps cn) (default ∅ (lookup_record st c b i)))
    else lookup_record st c' b' i'.
Proof.
  intros Hc. rewrite lookup_record_set_node.
  destruct (decide (c' = c)) as [->|Hne]; cycle 1.
  { rewrite decide_False; [done|]. by intros [? _]. }
  unfold lookup_record, deref. cbn. rewrite Hc. cbn.
  unfold stash_branches.
  destruct (decide (b' = b)) as [->|Hb].
  - rewrite lookup_insert_eq. cbn.
    destruct (decide (i' = i)) as [->|Hi].
    + rewrite lookup_insert_eq, decide_True; done.
    + rewrite lookup_insert_ne by done. rewrite decide_False by (by intros (?&?&?)).
      by destruct (branchNodes cn !! b).
  - rewrite lookup_insert_ne by done. rewrite decide_False by (by intros (?&?&?)). done.
Qed.

(** ** Running the primitives *)

Lemma bind_run {A B : Type} (m : M A) (f : A → M B) (st st' : Registry) (a : A) :
  m st = (Normal a, st') → bind m f st = f a st'.
Proof. intros H. unfold bind. by rewrite H. Qed.

Lemma storage_has_run (c : string) (st : Registry) :
  storage_has c st =
    (Normal (match storage st !! c with Some _ => true | None => false end), st).
Proof. done. Qed.

Lemma get_currentBranch_run (st : Registry) :
  get_currentBranch st = (Normal (currentBranch st), st).
Proof. done. Qed.

(** The accessors of a node that is in the store, and of the pool of the
    current branch when the node has one. *)
Section registered_class.
Context (st : Registry) (c : string) (cn : ClassNode).
Hypothesis Hc : storage st !! c = Some cn.

Lemma storage_get_run : storage_get c st = (Normal cn, st).
Proof. unfold storage_get, bind, get_state. by rewrite Hc. Qed.

Lemma branchNodes_has_run (b : string) :
  branchNodes_has c b st =
    (Normal (match branchNodes cn !! b with Some _ => true | None => false end), st).
Proof. unfold branchNodes_has. by rewrite (bind_run _ _ _ _ _ storage_get_run). Qed.

Lemma branchNodes_set_run (b : string) (pool : SetOfInstances) :
  branchNodes_set c b pool st =
    (Normal (), set_node c (with_branchNodes <[b := pool]> cn) st).
Proof.
  unfold branchNodes_set.
  rewrite (bind_run _ _ _ _ _ storage_get_run).
  unfold modify_state. f_equal. by apply on_branches_set_node.
Qed.

Section current_pool.
Context (pool : SetOfInstances).
Hypothesis Hb : branchNodes cn !! currentBranch st = Some pool.

Lemma getInstance_run (i : value) :
  getInstance c i st =
    (Normal (match pool !! i with
             | Some _ =>
                 Some {| ref_class := c; ref_branch := currentBranch st; ref_id := i |}
             | None => None
             end), st).
Proof.
  unfold getInstance.
  rewrite (bind_run _ _ _ _ _ storage_get_run).
  rewrite (bind_run _ _ _ _ _ (get_currentBranch_run _)).
  by rewrite Hb.
Qed.

Lemma setInstance_run (i : value) (map : InstanceProps) :
  setInstance c i map st =
    (Normal (),
     set_node c (with_branchNodes <[currentBranch st := <[i := map]> pool]> cn) st).
Proof.
  unfold setInstance.
  rewrite (bind_run _ _ _ _ _ storage_get_run).
  rewrite (bind_run _ _ _ _ _ (get_currentBranch_run _)).
  rewrite Hb. unfold modify_state. f_equal.
  fold (on_branches c (alter <[i:=map]> (currentBranch st)) st).
  rewrite (on_branches_set_node _ _ _ _ Hc). f_equal.
  unfold with_branchNodes. f_equal. by apply alter_as_insert.
Qed.
End current_pool.
End registered_class.

Lemma instance_has_run (r : InstanceRef) (m : InstanceProps) (p : string) (st : Registry) :
  deref r st = Some m →
  instance_has (Some r) p st =
    (Normal (match m !! p with Some _ => true | None => false end), st).
Proof. intros H. unfold instance_has, bind, get_state. cbn. by rewrite H. Qed.

Lemma instance_get_run (r : InstanceRef) (m : InstanceProps) (p : string) (st : Registry) :
  deref r st = Some m →
  instance_get (Some r) p st = (Normal (default VUndefined (m !! p)), st).
Proof. intros H. unfold instance_get, bind, get_state. cbn. by rewrite H. Qed.

(** ** Computations that only read *)

Lemma read_only_ret {A : Type} (a : A) : read_only (ret a).
Proof. by intros st. Qed.

Lemma read_only_throw {A : Type} (e : exn) : read_only (throw (A := A) e).
Proof. by intros st. Qed.

Lemma read_only_get_state : read_only get_state.
Proof. by intros st. Qed.

Lemma read_only_bind {A B : Type} (m : M A) (f : A → M B) :
  read_only m → (∀ a, read_only (f a)) → read_only (bind m f).
Proof.
  intros Hm Hf st. unfold bind. specialize (Hm st).
  destruct (m st) as [[a|e] st']; simpl in *; subst; [apply Hf|done].
Qed.

#[local] Hint Resolve read_only_ret read_only_throw read_only_get_state : read_only.

Ltac read_only_step :=
  match goal with
  | |- read_only (bind _ _) => apply read_only_bind; [|intros ?]
  | |- read_only (match ?x with _ => _ end) => destruct x
  | |- read_only (if ?x then _ else _) => destruct x
  | |- read_only _ => by auto with read_only
  end.

Lemma read_only_get_prop (obj : subject) (p : string) : read_only (get_prop obj p).
Proof. unfold get_prop. repeat read_only_step. Qed.

Lemma read_only_set_prop (obj : subject) (p : string) (v : value) :
  read_only (set_prop obj p v).
Proof. unfold set_prop. repeat read_only_step. Qed.

Lemma read_only_get_constructor_name (obj : subject) :
  read_only (get_constructor_name obj).
Proof. unfold get_constructor_name. repeat read_only_step. Qed.

Lemma read_only_get_currentBranch : read_only get_currentBranch.
Proof. unfold get_currentBranch. repeat read_only_step. Qed.

Lemma read_only_storage_has (c : string) : read_only (storage_has c).
Proof. unfold storage_has. repeat read_only_step. Qed.

Lemma read_only_storage_get (c : string) : read_only (storage_get c).
Proof. unfold storage_get. repeat read_only_step. Qed.

#[local] Hint Resolve read_only_get_prop read_only_set_prop
  read_only_get_constructor_name read_only_get_currentBranch
  read_only_storage_has read_only_storage_get : read_only.

Lemma read_only_branchNodes_has (c b : string) : read_only (branchNodes_has c b).
Proof. unfold branchNodes_has. repeat read_only_step. Qed.

Lemma read_only_getInstance (c : string) (i : value) : read_only (getInstance c i).
Proof. unfold getInstance. repeat read_only_step. Qed.

Lemma read_only_instance_has (r : option InstanceRef) (p : string) :
  read_only (instance_has r p).
Proof. unfold instance_has. repeat read_only_step. Qed.

Lemma read_only_instance_get (r : option InstanceRef) (p : string) :
  read_only (instance_get r p).
Proof. unfold instance_get. repeat read_only_step. Qed.

#[local] Hint Resolve read_only_branchNodes_has read_only_getInstance
  read_only_instance_has read_only_instance_get : read_only.

Lemma read_only_forEach_on {A T : Type} (l : list A) (f : T → A → M T) :
  (∀ t x, read_only (f t x)) → ∀ t, read_only (forEach_on l f t).
Proof.
  intros Hf. induction l as [|x l IH]; intros t; cbn [forEach_on].
  - apply read_only_ret.
  - apply read_only_bind; [apply Hf|apply IH].
Qed.

Lemma read_only_reassign (targetObj : subject) (fc fid : option string) :
  read_only (reassign targetObj fc fid).
Proof.
  unfold reassign. repeat read_only_step.
  apply read_only_forEach_on. intros t x. repeat read_only_step.
Qed.

(** ** What [stash] does *)

Lemma stash_loop (c b : string) (i : value) (o : object) (l : list string) :
  ∀ (st : Registry) (cn : ClassNode) (pool : SetOfInstances) (m : InstanceProps),
    storage st !! c = Some cn →
    branchNodes cn !! b = Some pool →
    pool !! i = Some m →
    forEach l (λ prop,
       let* v := get_prop (Obj o) prop in
       if negb (is_undefined v)
       then instance_set (Some {| ref_class := c; ref_branch := b; ref_id := i |}) prop v
       else ret ()) st =
    (Normal (),
     set_node c (with_branchNodes
                   (λ bn, <[b := <[i := stash_props o l m]> pool]> bn) cn) st).
Proof.
  induction l as [|p l IH]; intros st cn pool m Hc Hb Hi.
  - simpl. unfold ret. f_equal. symmetry.
    unfold stash_props; simpl.
    rewrite (insert_id pool i m Hi).
    unfold with_branchNodes. rewrite (insert_id _ b pool Hb), ClassNode_eta.
    by apply set_node_id.
  - change (stash_props o (p :: l) m) with (stash_props o l (stash_prop o m p)).
    cbn [forEach]. unfold bind at 1. unfold bind at 1. cbn [get_prop].
    unfold ret at 1. fold (prop_of o p). unfold stash_prop.
    destruct (is_undefined (prop_of o p)) eqn:Hu; cbn [negb].
    + unfold ret at 1. by apply IH.
    + unfold instance_set, bind at 1, get_state, deref. cbn.
      rewrite Hc. cbn. rewrite Hb. cbn. rewrite Hi. cbn.
      unfold modify_state.
      fold (on_branches c (alter (alter <[p:=prop_of o p]> i) b) st).
      rewrite (on_branches_set_node _ _ _ _ Hc).
      erewrite IH; cycle 1.
      * unfold set_node, with_storage; simpl. apply lookup_insert_eq.
      * simpl. rewrite lookup_alter_eq, Hb. done.
      * rewrite lookup_alter_eq, Hi. done.
      * f_equal. rewrite set_node_set_node. f_equal.
        unfold with_branchNodes; simpl. f_equal.
        rewrite insert_alter_eq. f_equal. by rewrite insert_alter_eq.
Qed.

Lemma stash_run (st : Registry) (o : object) (fc fid : option string) (cn : ClassNode) :
  storage st !! resolved_class o fc = Some cn →
  resolved_id o cn fid ≠ VUndefined →
  stash (Obj o) fc fid st =
    (Normal true,
     set_node (resolved_class o fc)
       (stash_node o (currentBranch st) (resolved_id o cn fid) cn) st).
Proof.
  intros Hc Hid. unfold stash.
  set (c := resolved_class o fc) in *. set (i := resolved_id o cn fid) in *.
  assert (Hcls : match fc with
                 | None => get_constructor_name (Obj o)
                 | Some c0 => ret c0
                 end st = (Normal c, st)) by (by destruct fc).
  rewrite (bind_run _ _ _ _ _ Hcls).
  rewrite (bind_run _ _ _ _ _ (storage_has_run _ _)), Hc. cbn [negb].
  rewrite (bind_run _ _ _ _ _ (storage_get_run _ _ _ Hc)).
  assert (Hi : match fid with
               | None => get_prop (Obj o) (keyProp cn)
               | Some i0 => ret (VStr i0)
               end st = (Normal i, st)) by (by destruct fid).
  rewrite (bind_run _ _ _ _ _ Hi).
  apply is_undefined_false in Hid. rewrite Hid.
  rewrite (bind_run _ _ _ _ _ (get_currentBranch_run _)).
  set (b := currentBranch st).
  rewrite (bind_run _ _ _ _ _ (branchNodes_has_run _ _ _ Hc _)).
  unfold stash_node, stash_branches.
  destruct (branchNodes cn !! b) as [pool|] eqn:Hb; cbn [negb mbind option_bind default].
  - rewrite (bind_run _ _ _ _ _ (eq_refl : ret () st = (Normal (), st))).
    rewrite (bind_run _ _ _ _ _ (getInstance_run _ _ _ Hc _ Hb _)).
    destruct (pool !! i) as [m|] eqn:Hm; cbn [default].
    + rewrite (bind_run _ _ _ _ _ (eq_refl : ret () st = (Normal (), st))).
      rewrite (bind_run _ _ _ _ _ (getInstance_run _ _ _ Hc _ Hb _)), Hm.
      fold b. rewrite (bind_run _ _ _ _ _ (stash_loop _ _ _ _ _ _ _ _ _ Hc Hb Hm)).
      unfold ret, with_branchNodes. by rewrite Hb; cbn; rewrite Hm.
    + rewrite (bind_run _ _ _ _ _ (setInstance_run _ _ _ Hc _ Hb _ _)). fold b.
      set (cn1 := with_branchNodes <[b:=<[i:=∅]> pool]> cn).
      set (st1 := set_node c cn1 st).
      assert (Hc1 : storage st1 !! c = Some cn1) by apply set_node_lookup.
      assert (Hb1 : branchNodes cn1 !! currentBranch st1 = Some (<[i:=∅]> pool))
        by apply lookup_insert_eq.
      rewrite (bind_run _ _ _ _ _ (getInstance_run _ _ _ Hc1 _ Hb1 _)).
      rewrite lookup_insert_eq.
      change (currentBranch st1) with b in *.
      rewrite (bind_run _ _ _ _ _
                 (stash_loop _ _ _ _ _ _ _ _ _ Hc1 Hb1 (lookup_insert_eq _ _ _))).
      unfold ret. f_equal. unfold st1. rewrite set_node_set_node. f_equal.
      unfold cn1, with_branchNodes; simpl. rewrite Hb; cbn. rewrite Hm; cbn. f_equal.
      by rewrite !insert_insert_eq.
  - rewrite (bind_run _ _ _ _ _ (branchNodes_set_run _ _ _ Hc _ _)).
    set (cn1 := with_branchNodes <[b:=∅]> cn).
    set (st1 := set_node c cn1 st).
    assert (Hc1 : storage st1 !! c = Some cn1) by apply set_node_lookup.
    assert (Hb1 : branchNodes cn1 !! currentBranch st1 = Some ∅)
      by apply lookup_insert_eq.
    rewrite (bind_run _ _ _ _ _ (getInstance_run _ _ _ Hc1 _ Hb1 _)).
    
    rewrite (bind_run _ _ _ _ _ (setInstance_run _ _ _ Hc1 _ Hb1 _ _)).
    change (currentBranch st1) with b in *.
    set (cn2 := with_branchNodes <[b:=<[i:=∅]> ∅]> cn1).
    set (st2 := set_node c cn2 st1).
    assert (Hc2 : storage st2 !! c = Some cn2) by apply set_node_lookup.
    assert (Hb2 : branchNodes cn2 !! currentBranch st2 = Some (<[i:=∅]> ∅))
      by apply lookup_insert_eq.
    rewrite (bind_run _ _ _ _ _ (getInstance_run _ _ _ Hc2 _ Hb2 _)).
    rewrite lookup_insert_eq.
    change (currentBranch st2) with b in *.
    rewrite (bind_run _ _ _ _ _
               (stash_loop _ _ _ _ _ _ _ _ _ Hc2 Hb2 (lookup_insert_eq _ _ _))).
    unfold ret. f_equal. unfold st2, st1. rewrite !set_node_set_node. f_equal.
    unfold cn2, cn1, with_branchNodes; simpl. rewrite Hb; cbn. f_equal.
    by rewrite !insert_insert_eq.
Qed.

Lemma stash_unregistered (st : Registry) (o : object) (fc fid : option string) :
  storage st !! resolved_class o fc = None →
  stash (Obj o) fc fid st = (Normal false, st).
Proof.
  intros Hc. unfold stash.
  assert (Hcls : match fc with
                 | None => get_constructor_name (Obj o)
                 | Some c0 => ret c0
                 end st = (Normal (resolved_class o fc), st)) by (by destruct fc).
  rewrite (bind_run _ _ _ _ _ Hcls).
  by rewrite (bind_run _ _ _ _ _ (storage_has_run _ _)), Hc.
Qed.

Lemma stash_no_id (st : Registry) (o : object) (fc fid : option string) (cn : ClassNode) :
  storage st !! resolved_class o fc = Some cn →
  resolved_id o cn fid = VUndefined →
  stash (Obj o) fc fid st = (Normal false, st).
Proof.
  intros Hc Hid. unfold stash.
  assert (Hcls : match fc with
                 | None => get_constructor_name (Obj o)
                 | Some c0 => ret c0
                 end st = (Normal (resolved_class o fc), st)) by (by destruct fc).
  rewrite (bind_run _ _ _ _ _ Hcls).
  rewrite (bind_run _ _ _ _ _ (storage_has_run _ _)), Hc. cbn [negb].
  rewrite (bind_run _ _ _ _ _ (storage_get_run _ _ _ Hc)).
  assert (Hi : match fid with
               | None => get_prop (Obj o) (keyProp cn)
               | Some i0 => ret (VStr i0)
               end st = (Normal (resolved_id o cn fid), st)) by (by destruct fid).
  rewrite (bind_run _ _ _ _ _ Hi). by rewrite Hid.
Qed.

Lemma stash_cases (st : Registry) (o : object) (fc fid : option string) :
  stash (Obj o) fc fid st =
    match storage st !! resolved_class o fc with
    | None => (Normal false, st)
    | Some cn =>
        if is_undefined (resolved_id o cn fid) then (Normal false, st) else
        (Normal true,
         set_node (resolved_class o fc)
           (stash_node o (currentBranch st) (resolved_id o cn fid) cn) st)
    end.
Proof.
  destruct (storage st !! resolved_class o fc) as [cn|] eqn:Hc;
    [|by apply stash_unregistered].
  destruct (is_undefined (resolved_id o cn fid)) eqn:Hu.
  - apply is_undefined_spec in Hu. by apply (stash_no_id _ _ _ _ cn).
  - apply is_undefined_false in Hu. by apply stash_run.
Qed.

(** ** What [reassign] does *)

Lemma reassign_loop (r : InstanceRef) (m : InstanceProps) (st : Registry)
    (l : list string) :
  deref r st = Some m →
  ∀ o : object,
    forEach_on l
      (λ target prop,
         let* has := instance_has (Some r) prop in
         if has then let* v := instance_get (Some r) prop in set_prop target prop v
         else ret target)
      (Obj o) st =
    (Normal (Obj (reassign_props m l o)), st).
Proof.
  intros Hr. induction l as [|p l IH]; intros o; [done|].
  change (reassign_props m (p :: l) o) with (reassign_props m l (reassign_prop m o p)).
  cbn [forEach_on].
  rewrite <- IH. apply bind_run.
  rewrite (bind_run _ _ _ _ _ (instance_has_run _ _ _ _ Hr)).
  unfold reassign_prop. destruct (m !! p) as [v|] eqn:Hp; [|done].
  rewrite (bind_run _ _ _ _ _ (instance_get_run _ _ _ _ Hr)). by rewrite Hp.
Qed.

Lemma reassign_run (st : Registry) (o : object) (fc fid : option string) :
  reassign (Obj o) fc fid st = (Normal (reassign_result st o fc fid), st).
Proof.
  unfold reassign, reassign_result.
  set (c := resolved_class o fc).
  assert (Hcls : match fc with
                 | None => get_constructor_name (Obj o)
                 | Some c0 => ret c0
                 end st = (Normal c, st)) by (by destruct fc).
  rewrite (bind_run _ _ _ _ _ Hcls).
  rewrite (bind_run _ _ _ _ _ (storage_has_run _ _)).
  destruct (storage st !! c) as [cn|] eqn:Hc; [|done]. cbn [negb].
  rewrite (bind_run _ _ _ _ _ (storage_get_run _ _ _ Hc)).
  set (i := resolved_id o cn fid).
  assert (Hi : match fid with
               | None => get_prop (Obj o) (keyProp cn)
               | Some i0 => ret (VStr i0)
               end st = (Normal i, st)) by (by destruct fid).
  rewrite (bind_run _ _ _ _ _ Hi).
  destruct (is_undefined i); [done|].
  rewrite (bind_run _ _ _ _ _ (get_currentBranch_run _)).
  rewrite (bind_run _ _ _ _ _ (branchNodes_has_run _ _ _ Hc _)).
  unfold lookup_record, deref. cbn. rewrite Hc. cbn.
  destruct (branchNodes cn !! currentBranch st) as [pool|] eqn:Hb; [|done].
  cbn [negb mbind option_bind].
  rewrite (bind_run _ _ _ _ _ (getInstance_run _ _ _ Hc _ Hb _)).
  destruct (pool !! i) as [m|] eqn:Hm; [|done].
  rewrite (bind_run _ _ _ _ _ (getInstance_run _ _ _ Hc _ Hb _)), Hm.
  assert (Hr : deref {| ref_class := c; ref_branch := currentBranch st; ref_id := i |} st
               = Some m).
  { unfold deref. cbn. rewrite Hc. cbn. rewrite Hb. done. }
  by rewrite (bind_run _ _ _ _ _ (reassign_loop _ _ _ _ Hr o)).
Qed.

Lemma reassign_miss (st : Registry) (o : object) (fc fid : option string) (cn : ClassNode) :
  storage st !! resolved_class o fc = Some cn →
  lookup_record st (resolved_class o fc) (currentBranch st) (resolved_id o cn fid) = None →
  reassign (Obj o) fc fid st = (Normal (false, Obj o), st).
Proof.
  intros Hc Hm. rewrite reassign_run. unfold reassign_result. rewrite Hc, Hm.
  by destruct (is_undefined _).
Qed.

Lemma reassign_hit (st : Registry) (o : object) (fc fid : option string) (cn : ClassNode)
    (m : InstanceProps) :
  storage st !! resolved_class o fc = Some cn →
  resolved_id o cn fid ≠ VUndefined →
  lookup_record st (resolved_class o fc) (currentBranch st) (resolved_id o cn fid) = Some m →
  reassign (Obj o) fc fid st = (Normal (true, Obj (reassign_props m (dProps cn) o)), st).
Proof.
  intros Hc Hid Hm. rewrite reassign_run. unfold reassign_result. rewrite Hc, Hm.
  apply is_undefined_false in Hid. by rewrite Hid.
Qed.

Lemma stash_then_reassign (st : Registry) (cn : ClassNode) (o t : object)
    (fc fid fc' fid' : option string) :
  storage st !! resolved_class o fc = Some cn →
  resolved_id o cn fid ≠ VUndefined →
  resolved_class t fc' = resolved_class o fc →
  resolved_id t cn fid' = resolved_id o cn fid →
  ∃ st',
    stash (Obj o) fc fid st = (Normal true, st') ∧
    currentBranch st' = currentBranch st ∧
    reassign (Obj t) fc' fid' st' =
      (Normal (true,
               Obj (reassign_props
                      (stash_props o (dProps cn)
                         (default ∅ (lookup_record st (resolved_class o fc)
                                       (currentBranch st) (resolved_id o cn fid))))
                      (dProps cn) t)), st').
Proof.
  intros Hc Hid Hc' Hid'. eexists. split; [by apply stash_run|]. split; [done|].
  rewrite reassign_run. f_equal. unfold reassign_result.
  rewrite Hc', set_node_lookup.
  assert (Hk : ∀ b i, resolved_id t (stash_node o b i cn) fid' = resolved_id t cn fid')
    by done.
  rewrite !Hk, Hid'.
  apply is_undefined_false in Hid. rewrite Hid.
  rewrite (lookup_record_stash _ _ _ _ _ _ _ _ _ Hc), decide_True by done.
  done.
Qed.

(** ** What [switch], [registerClass] and [stashByKey] do *)

Lemma switch_to_run (b : string) (st : Registry) :
  switch_to b st = (Normal true, switched b st).
Proof.
  unfold switch_to.
  rewrite (bind_run _ _ _ _ _ (get_currentBranch_run _)).
  destruct (decide (b = currentBranch st)) as [->|Hne]; [|done].
  by destruct st.
Qed.

Lemma switch_run (branch : option string) (st : Registry) :
  switch branch st = (Normal true, switched (default "*" branch) st).
Proof.
  destruct branch as [b|]; cbn [switch default from_option id]; [apply switch_to_run|].
  rewrite (bind_run _ _ _ _ _ (get_currentBranch_run _)).
  destruct (decide (currentBranch st = "*")) as [Heq|Hne]; [|apply switch_to_run].
  unfold ret, switched. rewrite <- Heq. by destruct st.
Qed.

Lemma registerClass_array (st : Registry) (name first : string) (rest : list string)
    (kp : option string) (fn : option (string → subject)) :
  storage st !! name = None →
  registerClass (ClassName name) (PropsArray (first :: rest)) kp fn st =
    (Normal true,
     set_node name (new_ClassNode (new_Set (first :: rest)) ∅ kp fn) st).
Proof.
  intros Hc. unfold registerClass.
  rewrite (bind_run _ _ _ _ _ (eq_refl : ret name st = (Normal name, st))).
  rewrite (bind_run _ _ _ _ _ (storage_has_run _ _)), Hc. done.
Qed.

Lemma registerClass_again (st : Registry) (name : string) (cn : ClassNode)
    (dprops : propsArg) (kp : option string) (fn : option (string → subject)) :
  storage st !! name = Some cn →
  registerClass (ClassName name) dprops kp fn st = (Normal false, st).
Proof.
  intros Hc. unfold registerClass.
  rewrite (bind_run _ _ _ _ _ (eq_refl : ret name st = (Normal name, st))).
  rewrite (bind_run _ _ _ _ _ (storage_has_run _ _)), Hc. done.
Qed.

Lemma stashByKey_run (st : Registry) (c id : string) (cn : ClassNode) (o : object) :
  storage st !! c = Some cn →
  stash (Obj o) (Some c) (Some id) st =
    (Normal true, set_node c (stash_node o (currentBranch st) (VStr id) cn) st) ∧
  stashByKey c id (Obj o) st =
    (Normal VUndefined, set_node c (stash_node o (currentBranch st) (VStr id) cn) st).
Proof.
  intros Hc.
  assert (Hs : stash (Obj o) (Some c) (Some id) st =
    (Normal true, set_node c (stash_node o (currentBranch st) (VStr id) cn) st))
    by (by apply (stash_run st o (Some c) (Some id) cn)).
  split; [done|]. unfold stashByKey.
  rewrite (bind_run _ _ _ _ _ (storage_has_run _ _)), Hc. cbn [negb].
  rewrite (bind_run _ _ _ _ _ (storage_get_run _ _ _ Hc)).
  rewrite (bind_run _ _ _ _ _ (eq_refl : ret (Obj o) st = (Normal (Obj o), st))).
  by rewrite (bind_run _ _ _ _ _ Hs).
Qed.

(** ** The registries of the examples *)

Lemma hero_node_dProps (p : string) : p ∈ dProps hero_node ↔ p = "a" ∨ p = "b".
Proof.
  change (dProps hero_node) with ["a"; "b"].
  rewrite !elem_of_cons, elem_of_nil. tauto.
Qed.

Lemma hero_node_a_dProps (p : string) : p ∈ dProps hero_node_a ↔ p = "a".
Proof.
  change (dProps hero_node_a) with ["a"].
  rewrite !elem_of_cons, elem_of_nil. tauto.
Qed.

(** ** The operations on small inputs *)

Example registerClass_empty_array :
  registerClass (ClassName "Hero") (PropsArray []) None None initial =
    (Normal false, initial).
Proof. reflexivity. Qed.

Example registerClass_no_props :
  registerClass (ClassName "Hero") PropsUndefined None None initial =
    (Normal false, initial).
Proof. reflexivity. Qed.

Example registerClass_of_undefined :
  registerClass (ClassOf SUndefined) (PropsArray ["a"]) None None initial =
    (Abrupt TypeError, initial).
Proof. reflexivity. Qed.

Example new_Set_drops_repetitions : new_Set ["a"; "b"; "a"; "c"; "b"] = ["a"; "b"; "c"].
Proof. reflexivity. Qed.

Example registerClass_default_keyProp :
  keyProp <$> storage hero_registry !! "Hero" = Some "id".
Proof. reflexivity. Qed.

Example stash_unknown_class :
  stash (Obj (payload_xa "Villain")) None None hero_registry =
    (Normal false, hero_registry).
Proof. reflexivity. Qed.

Example stash_without_id :
  stash (Obj empty_payload) (Some "Hero") None hero_registry =
    (Normal false, hero_registry).
Proof. reflexivity. Qed.

Example reassign_before_any_stash :
  reassign (Obj (target_x "Hero")) None None hero_registry =
    (Normal (false, Obj (target_x "Hero")), hero_registry).
Proof. reflexivity. Qed.

Example stash_of_null_raises_in_the_loop :
  (stash SNull (Some "Hero") (Some "x") hero_registry).1 = Abrupt TypeError ∧
  lookup_record (stash SNull (Some "Hero") (Some "x") hero_registry).2
    "Hero" "*" (VStr "x") = Some ∅.
Proof. split; reflexivity. Qed.

Example stashByKey_unknown_class :
  stashByKey "Villain" "x" SUndefined hero_registry = (Normal (VBool false), hero_registry).
Proof. reflexivity. Qed.

(** * The claims of the specification *)

(** C1 (round trip).  For a class registered with key property [id] and
    tracked properties [a] and [b], whatever else the registry holds and
    whichever branch is current: [stash] of [{id:"x", a:1, b:2}] returns
    [true] and leaves the branch as it is, and [reassign] into [{id:"x"}]
    then returns [true] and leaves the target equal to
    [{id:"x", a:1, b:2}].  The class is found by the constructor name [k] of
    the two objects or by [forcedClassName]. *)
Theorem round_trip (st : Registry) (k : string) (forcedClassName : option string)
    (cn : ClassNode) :
  storage st !! default k forcedClassName = Some cn →
  keyProp cn = "id" →
  (∀ p, p ∈ dProps cn ↔ p = "a" ∨ p = "b") →
  ∃ st',
    stash (Obj (payload_xab k)) forcedClassName None st = (Normal true, st') ∧
    currentBranch st' = currentBranch st ∧
    reassign (Obj (target_x k)) forcedClassName None st' =
      (Normal (true, Obj (payload_xab k)), st').
Proof.
  intros Hc Hk Hp.
  destruct (stash_then_reassign st cn (payload_xab k) (target_x k)
              forcedClassName None forcedClassName None) as (st' & Hs & Hb & Hr).
  - by destruct forcedClassName.
  - cbn. by rewrite Hk.
  - by destruct forcedClassName.
  - cbn. by rewrite Hk.
  - exists st'. split; [done|]. split; [done|]. rewrite Hr. do 4 f_equal.
    apply object_eq; [by rewrite reassign_props_constructor|].
    apply map_eq. intros p. rewrite reassign_props_lookup, !stash_props_lookup.
    destruct (decide (p ∈ dProps cn)) as [Hin|Hnin].
    + apply Hp in Hin as Hab. destruct Hab as [-> | ->].
      * rewrite (decide_True (P := _ ∧ prop_of _ _ ≠ _)) by done.
        by rewrite decide_True.
      * rewrite (decide_True (P := _ ∧ prop_of _ _ ≠ _)) by done.
        by rewrite decide_True.
    + rewrite decide_False by (by intros [? _]).
      assert (p ≠ "a" ∧ p ≠ "b") as [Ha Hb'].
      { split; intros ->; apply Hnin, Hp; auto. }
      unfold payload_xab, target_x, obj_of; cbn.
      destruct (decide (p = "id")) as [->|Hid]; [done|].
      by rewrite !lookup_insert_ne.
Qed.

Lemma round_trip_witness :
  storage hero_registry !! "Hero" = Some hero_node ∧
  ∃ st',
    stash (Obj (payload_xab "Hero")) None None hero_registry = (Normal true, st') ∧
    currentBranch st' = currentBranch hero_registry ∧
    reassign (Obj (target_x "Hero")) None None st' =
      (Normal (true, Obj (payload_xab "Hero")), st').
Proof.
  split; [reflexivity|].
  apply (round_trip hero_registry "Hero" None hero_node);
    [reflexivity|reflexivity|apply hero_node_dProps].
Defined.

(** C2 (field-level upsert merge).  For a registered class, a [stash] of
    an object whose instance id resolves returns [true], and in the record
    it leaves for that instance on the current branch every tracked
    property that is defined on the payload holds the payload's value, and
    every tracked property that is undefined on the payload holds what the
    record held before the call (nothing, if there was no entry): it is
    never deleted.  In particular, with [id] as key property and [a] and [b]
    tracked, stashing [{id:"x", a:0, b:2}] and then [{id:"x", a:1}] gives a
    record from which [reassign] restores [a:1] and [b:2]. *)
Theorem stash_upsert_merge (st : Registry) (c : string) (cn : ClassNode) :
  storage st !! c = Some cn →
  (∀ (o : object) (fc fid : option string),
     resolved_class o fc = c →
     resolved_id o cn fid ≠ VUndefined →
     ∃ (st' : Registry) (m' : InstanceProps),
       stash (Obj o) fc fid st = (Normal true, st') ∧
       lookup_record st' c (currentBranch st) (resolved_id o cn fid) = Some m' ∧
       ∀ p, p ∈ dProps cn →
         m' !! p =
           if is_undefined (prop_of o p)
           then lookup_record st c (currentBranch st) (resolved_id o cn fid)
                  ≫= λ m, m !! p
           else Some (prop_of o p)) ∧
  (keyProp cn = "id" → "a" ∈ dProps cn → "b" ∈ dProps cn →
   ∀ (k : string) (fc : option string),
     default k fc = c →
     ∃ (t : object) (st' : Registry),
       (let* s1 := stash (Obj (payload_xa0b2 k)) fc None in
        let* s2 := stash (Obj (payload_xa k)) fc None in
        let* r := reassign (Obj (target_x k)) fc None in
        ret (s1, s2, r)) st =
       (Normal (true, true, (true, Obj t)), st') ∧
       props t !! "a" = Some (VNum 1) ∧
       props t !! "b" = Some (VNum 2)).
Proof.
  intros Hc. split.
  - intros o fc fid <- Hid. eexists _, _. split; [by apply stash_run|].
    split.
    + rewrite lookup_record_stash by done. by rewrite decide_True.
    + intros p Hp. rewrite stash_props_lookup.
      destruct (is_undefined (prop_of o p)) eqn:Hu.
      * apply is_undefined_spec in Hu. rewrite decide_False by (by intros [_ ?]).
        by destruct (lookup_record _ _ _ _).
      * apply is_undefined_false in Hu. by rewrite decide_True.
  - intros Hk Ha Hb k fc <-.
    set (c := default k fc) in *.
    assert (Hrc : ∀ o, constructor_name o = k → resolved_class o fc = c).
    { intros o Ho. by rewrite resolved_class_default, Ho. }
    assert (Hc0 : storage st !! resolved_class (payload_xa0b2 k) fc = Some cn)
      by (by rewrite Hrc).
    assert (Hid0 : resolved_id (payload_xa0b2 k) cn None = VStr "x")
      by (cbn; by rewrite Hk).
    assert (Hid0' : resolved_id (payload_xa0b2 k) cn None ≠ VUndefined)
      by (by rewrite Hid0).
    rewrite (bind_run _ _ _ _ _ (stash_run _ _ _ _ _ Hc0 Hid0')).
    rewrite Hid0, Hrc by done.
    set (b := currentBranch st).
    set (cn1 := stash_node (payload_xa0b2 k) b (VStr "x") cn).
    set (st1 := set_node c cn1 st).
    destruct (stash_then_reassign st1 cn1 (payload_xa k) (target_x k) fc None fc None)
      as (st2 & Hs & _ & Hr).
    { rewrite Hrc by done. apply set_node_lookup. }
    { cbn. by rewrite Hk. }
    { by rewrite !Hrc. }
    { cbn. by rewrite Hk. }
    rewrite (bind_run _ _ _ _ _ Hs), (bind_run _ _ _ _ _ Hr).
    eexists _, _. split; [done|].
    assert (Hid1 : resolved_id (payload_xa k) cn1 None = VStr "x")
      by (cbn; by rewrite Hk).
    rewrite Hid1, Hrc by done. change (currentBranch st1) with b.
    unfold st1, cn1 at 2 5. rewrite lookup_record_stash, decide_True by done.
    cbn [default from_option id]. change (dProps cn1) with (dProps cn).
    rewrite !reassign_props_lookup, !stash_props_lookup.
    split.
    + rewrite (decide_True (P := _ ∧ prop_of (payload_xa k) _ ≠ _)) by done.
      by rewrite decide_True.
    + rewrite (decide_False (P := _ ∧ prop_of (payload_xa k) _ ≠ _))
        by (by intros [_ ?]).
      rewrite (decide_True (P := _ ∧ prop_of (payload_xa0b2 k) _ ≠ _)) by done.
      by rewrite decide_True.
Qed.

Lemma stash_upsert_merge_witness :
  storage hero_registry !! "Hero" = Some hero_node ∧
  (∃ (st' : Registry) (m' : InstanceProps),
     stash (Obj (payload_xa "Hero")) None None hero_registry = (Normal true, st') ∧
     lookup_record st' "Hero" "*" (VStr "x") = Some m' ∧
     m' !! "a" = Some (VNum 1) ∧ m' !! "b" = None) ∧
  ∃ (t : object) (st' : Registry),
    (let* s1 := stash (Obj (payload_xa0b2 "Hero")) None None in
     let* s2 := stash (Obj (payload_xa "Hero")) None None in
     let* r := reassign (Obj (target_x "Hero")) None None in
     ret (s1, s2, r)) hero_registry =
    (Normal (true, true, (true, Obj t)), st') ∧
    props t !! "a" = Some (VNum 1) ∧
    props t !! "b" = Some (VNum 2).
Proof.
  split; [reflexivity|].
  destruct (stash_upsert_merge hero_registry "Hero" hero_node eq_refl) as [Hg Hp].
  split.
  - destruct (Hg (payload_xa "Hero") None None eq_refl) as (st' & m' & Hs & Hm & Hl).
    { vm_compute. discriminate. }
    exists st', m'. split; [exact Hs|]. split; [exact Hm|]. split.
    + apply (Hl "a"), hero_node_dProps. by left.
    + apply (Hl "b"), hero_node_dProps. by right.
  - apply (Hp eq_refl); [apply hero_node_dProps; by left|apply hero_node_dProps; by right|].
    reflexivity.
Defined.

(** C3 (branch isolation).  For a registered class with key property [id]
    that tracks [a]: after [switch("A")] and a [stash] of [{id:"x", a:1}],
    [switch("B")] makes [reassign] into [{id:"x"}] return exactly what it
    returns on branch [B] of the registry as it was before the stash, so
    nothing stashed on [A] is seen; that is [false] with the target
    unchanged when [B] holds no record for ["x"], as on a class that was
    never stashed on [B].  After [switch("A")] the same [reassign] returns
    [true] and sets [a:1].  The branch is the one current at each call:
    the class was registered before any of the switches. *)
Theorem branch_isolation (st : Registry) (k : string) (forcedClassName : option string)
    (cn : ClassNode) :
  storage st !! default k forcedClassName = Some cn →
  keyProp cn = "id" →
  "a" ∈ dProps cn →
  ∃ (on_B : bool * subject) (t : object) (st' : Registry),
    (let* _ := switch (Some "A") in
     let* s := stash (Obj (payload_xa k)) forcedClassName None in
     let* _ := switch (Some "B") in
     let* miss := reassign (Obj (target_x k)) forcedClassName None in
     let* _ := switch (Some "A") in
     let* hit := reassign (Obj (target_x k)) forcedClassName None in
     ret (s, miss, hit)) st =
    (Normal (true, on_B, (true, Obj t)), st') ∧
    props t !! "a" = Some (VNum 1) ∧
    reassign (Obj (target_x k)) forcedClassName None (switched "B" st) =
      (Normal on_B, switched "B" st) ∧
    (lookup_record st (default k forcedClassName) "B" (VStr "x") = None →
     on_B = (false, Obj (target_x k))).
Proof.
  intros Hc Hk Ha.
  set (c := default k forcedClassName) in *.
  assert (Hrc : ∀ o, constructor_name o = k → resolved_class o forcedClassName = c).
  { intros o Ho. by rewrite resolved_class_default, Ho. }
  rewrite (bind_run _ _ _ _ _ (switch_run _ _)). cbn [default from_option id].
  set (stA := switched "A" st).
  assert (HcA : storage stA !! resolved_class (payload_xa k) forcedClassName = Some cn)
    by (by rewrite Hrc).
  assert (Hid : resolved_id (payload_xa k) cn None = VStr "x") by (cbn; by rewrite Hk).
  assert (Hidt : ∀ cn', keyProp cn' = "id" → resolved_id (target_x k) cn' None = VStr "x")
    by (intros cn' Hk'; cbn; by rewrite Hk').
  assert (Hid' : resolved_id (payload_xa k) cn None ≠ VUndefined) by (by rewrite Hid).
  rewrite (bind_run _ _ _ _ _ (stash_run _ _ _ _ _ HcA Hid')).
  rewrite Hid, Hrc by done. change (currentBranch stA) with "A".
  set (cn1 := stash_node (payload_xa k) "A" (VStr "x") cn).
  set (st1 := set_node c cn1 stA).
  rewrite (bind_run _ _ _ _ _ (switch_run _ _)). cbn [default from_option id].
  assert (Hc1 : ∀ b, storage (switched b st1) !! resolved_class (target_x k) forcedClassName
                     = Some cn1).
  { intros b. rewrite Hrc by done. apply set_node_lookup. }
  assert (HB : lookup_record st1 c "B" (VStr "x") = lookup_record st c "B" (VStr "x")).
  { unfold st1, cn1. rewrite lookup_record_stash by done.
    rewrite decide_False; [done|]. by intros (_ & ? & _). }
  assert (Hsame : reassign_result (switched "B" st1) (target_x k) forcedClassName None
                  = reassign_result (switched "B" st) (target_x k) forcedClassName None).
  { unfold reassign_result. rewrite Hc1, Hrc by done.
    change (storage (switched "B" st) !! c) with (storage st !! c). rewrite Hc.
    rewrite !Hidt by done. cbn [is_undefined].
    change (lookup_record (switched "B" st1) c (currentBranch (switched "B" st1)))
      with (lookup_record st1 c "B").
    change (lookup_record (switched "B" st) c (currentBranch (switched "B" st)))
      with (lookup_record st c "B").
    by rewrite HB. }
  rewrite (bind_run _ _ _ _ _ (reassign_run _ _ _ _)), Hsame.
  rewrite (bind_run _ _ _ _ _ (switch_run _ _)). cbn [default from_option id].
  change (switched "A" (switched "B" st1)) with (switched "A" st1).
  assert (Hhit : reassign (Obj (target_x k)) forcedClassName None (switched "A" st1)
                 = (Normal (true,
                      Obj (reassign_props
                             (stash_props (payload_xa k) (dProps cn)
                                (default ∅ (lookup_record stA c "A" (VStr "x"))))
                             (dProps cn) (target_x k))), switched "A" st1)).
  { apply (reassign_hit _ _ _ _ cn1); [apply Hc1|by rewrite Hidt|].
    rewrite Hrc, Hidt by done.
    change (lookup_record st1 c "A" (VStr "x") = Some
      (stash_props (payload_xa k) (dProps cn)
         (default ∅ (lookup_record stA c "A" (VStr "x"))))).
    unfold st1, cn1. rewrite lookup_record_stash by done. by rewrite decide_True. }
  rewrite (bind_run _ _ _ _ _ Hhit).
  eexists _, _, _. split; [done|]. split; [|split].
  - rewrite reassign_props_lookup, stash_props_lookup.
    rewrite (decide_True (P := _ ∧ prop_of _ _ ≠ _)) by done.
    by rewrite decide_True.
  - apply reassign_run.
  - intros Hnone. unfold reassign_result.
    rewrite Hrc by done. change (storage (switched "B" st) !! c) with (storage st !! c).
    rewrite Hc, Hidt by done. cbn [is_undefined].
    change (lookup_record (switched "B" st) c (currentBranch (switched "B" st)))
      with (lookup_record st c "B").
    by rewrite Hnone.
Qed.

Lemma branch_isolation_witness :
  storage hero_registry !! "Hero" = Some hero_node ∧
  ∃ (t : object) (st' : Registry),
    (let* _ := switch (Some "A") in
     let* s := stash (Obj (payload_xa "Hero")) None None in
     let* _ := switch (Some "B") in
     let* miss := reassign (Obj (target_x "Hero")) None None in
     let* _ := switch (Some "A") in
     let* hit := reassign (Obj (target_x "Hero")) None None in
     ret (s, miss, hit)) hero_registry =
    (Normal (true, (false, Obj (target_x "Hero")), (true, Obj t)), st') ∧
    props t !! "a" = Some (VNum 1).
Proof.
  split; [reflexivity|].
  destruct (branch_isolation hero_registry "Hero" None hero_node eq_refl eq_refl)
    as (on_B & t & st' & Hrun & Ha & _ & Hmiss).
  { apply hero_node_dProps. by left. }
  rewrite (Hmiss eq_refl) in Hrun. by exists t, st'.
Defined.

(** C4 (reassign reads only, and changes nothing when it fails).  For
    every registry, no [reassign] call changes it, whatever the target and
    whether the call returns or raises.  On an object the call returns, and
    it returns [false] exactly when the class is not registered, the
    instance id is undefined, the current branch has no pool for the class
    or the pool has no record for the id; whenever it returns [false] the
    target is as it was. *)
Theorem reassign_read_only_atomic (st : Registry) (o : object) (fc fid : option string) :
  (∀ targetObj : subject, (reassign targetObj fc fid st).2 = st) ∧
  ∃ (b : bool) (t : subject),
    reassign (Obj o) fc fid st = (Normal (b, t), st) ∧
    (b = false → t = Obj o) ∧
    (b = false ↔
       storage st !! resolved_class o fc = None ∨
       ∃ cn, storage st !! resolved_class o fc = Some cn ∧
         (resolved_id o cn fid = VUndefined ∨
          branchNodes cn !! currentBranch st = None ∨
          lookup_record st (resolved_class o fc) (currentBranch st)
            (resolved_id o cn fid) = None)).
Proof.
  split; [intros targetObj; apply read_only_reassign|].
  exists (reassign_result st o fc fid).1, (reassign_result st o fc fid).2.
  split; [rewrite reassign_run; by destruct (reassign_result _ _ _ _)|].
  unfold reassign_result.
  destruct (storage st !! resolved_class o fc) as [cn|] eqn:Hc; cbn; cycle 1.
  { split; [done|]. split; [by left|done]. }
  destruct (is_undefined (resolved_id o cn fid)) eqn:Hu; cbn.
  { apply is_undefined_spec in Hu. split; [done|]. split; [|done].
    intros _. right. exists cn. auto. }
  apply is_undefined_false in Hu.
  destruct (lookup_record st _ _ _) as [m|] eqn:Hm; cbn.
  - split; [done|]. split; [done|].
    intros [?|(cn' & Hcn' & [Hid|[Hb|Hr]])]; try done.
    + congruence.
    + injection Hcn' as <-. unfold lookup_record, deref in Hm. cbn in Hm.
      rewrite Hc in Hm. cbn in Hm. rewrite Hb in Hm. done.
    + injection Hcn' as <-. congruence.
  - split; [done|]. split; [|done]. intros _. right. exists cn. auto.
Qed.

(** C5 (registration with a [Set]).  [registerClass] with the tracked
    properties given as a [Set] returns [false] and leaves the registry as
    it was, for every set, empty or not, and whether or not the class is
    registered already: the emptiness test reads [dProps[0]], which is
    [undefined] on a [Set].  The specification has a first registration
    with a non-empty set return [true]; [registerClass_array] is what holds
    for arrays. *)
Theorem registerClass_Set_rejected (st : Registry) (name : string) (s : list string)
    (kp : option string) (fn : option (string → subject)) :
  registerClass (ClassName name) (PropsSet s) kp fn st = (Normal false, st).
Proof.
  unfold registerClass.
  rewrite (bind_run _ _ _ _ _ (eq_refl : ret name st = (Normal name, st))).
  rewrite (bind_run _ _ _ _ _ (storage_has_run _ _)).
  by destruct (storage st !! name).
Qed.

(** C6 (the value of [stashByKey]).  On a freshly registered class,
    [stashByKey] with a payload stores the payload, since the following
    [reassign] finds it, yet the call evaluates to [undefined] and not to
    the [true] that the [stash] it delegates to returns ([stashByKey_run]
    has this for every registered class): the source calls [this.stash]
    without returning its result. *)
Theorem stashByKey_value_undefined :
  ((let* r := registerClass (ClassName "Hero") (PropsArray ["a"]) None None in
    let* s := stashByKey "Hero" "x" (Obj (obj_of "Object" [("a", VNum 1)])) in
    let* t := reassign (Obj (obj_of "Object" [])) (Some "Hero") (Some "x") in
    ret (r, s, t)) initial).1 =
  Normal (true, VUndefined, (true, Obj (obj_of "Object" [("a", VNum 1)]))).
Proof. vm_compute. reflexivity. Qed.

(** C7 (an operation that raises).  On a class registered without a
    source callback, [stashByKey] without a payload raises a [TypeError]:
    it calls [classNode.fnGetSourceInstanceByKey], which is [undefined].
    The specification has no operation ever raise. *)
Theorem stashByKey_throws_without_source :
  ((let* r := registerClass (ClassName "Hero") (PropsArray ["a"]) None None in
    stashByKey "Hero" "x" SUndefined) initial).1 = Abrupt TypeError.
Proof. vm_compute. reflexivity. Qed.

(** C8 (switch).  [switch] always returns [true] and leaves the registry
    with the same storage and with the current branch set to its argument,
    or to ["*"] when it has none; when that is the current branch already
    the registry is unchanged; and calling it twice in a row is calling it
    once. *)
Theorem switch_semantics (st : Registry) (branch : option string) :
  switch branch st = (Normal true, switched (default "*" branch) st) ∧
  storage (switched (default "*" branch) st) = storage st ∧
  currentBranch (switched (default "*" branch) st) = default "*" branch ∧
  (currentBranch st = default "*" branch → switch branch st = (Normal true, st)) ∧
  (let* _ := switch branch in switch branch) st = switch branch st.
Proof.
  split; [apply switch_run|]. split; [done|]. split; [done|]. split.
  - intros Heq. rewrite switch_run. unfold switched. rewrite <- Heq. by destruct st.
  - rewrite (bind_run _ _ _ _ _ (switch_run _ _)). by rewrite !switch_run.
Qed.

Lemma switch_semantics_witness :
  switch None initial = (Normal true, initial) ∧
  (let* _ := switch (Some "A") in switch (Some "A")) initial = switch (Some "A") initial.
Proof.
  split.
  - apply (proj1 (proj2 (proj2 (proj2 (switch_semantics initial None))))). reflexivity.
  - apply (switch_semantics initial (Some "A")).
Defined.

(** C9 (untracked properties).  For a registered class: a [stash] leaves,
    in every record of the store, the entry of every property name that is
    not tracked as it was, so only tracked names are ever written; a
    [reassign] leaves on the target every property that is not tracked, or
    that has no stored entry, as it was; and with [id] as key property and
    [a] as the only tracked property, stashing [{id:"x", a:1, z:99}] and
    reassigning into [{id:"x", z:0}] leaves [z] equal to [0] and stores
    nothing under [z]. *)
Theorem untracked_never_stored_nor_restored (st : Registry) (c : string) (cn : ClassNode) :
  storage st !! c = Some cn →
  (∀ (o : object) (fc fid : option string) (p : string)
     (c' b' : string) (i' : value),
     resolved_class o fc = c →
     p ∉ dProps cn →
     lookup_record (stash (Obj o) fc fid st).2 c' b' i' ≫= (λ m, m !! p) =
     lookup_record st c' b' i' ≫= (λ m, m !! p)) ∧
  (∀ (t : object) (fc fid : option string),
     resolved_class t fc = c →
     ∃ (b : bool) (t' : object),
       reassign (Obj t) fc fid st = (Normal (b, Obj t'), st) ∧
       ∀ p,
         p ∉ dProps cn ∨
         lookup_record st c (currentBranch st) (resolved_id t cn fid)
           ≫= (λ m, m !! p) = None →
         props t' !! p = props t !! p) ∧
  (keyProp cn = "id" → (∀ p, p ∈ dProps cn ↔ p = "a") →
   ∀ (k : string) (fc : option string),
     default k fc = c →
     ∃ (t' : object) (st' : Registry),
       (let* s := stash (Obj (payload_xaz k)) fc None in
        let* r := reassign (Obj (target_xz k)) fc None in
        ret (s, r)) st =
       (Normal (true, (true, Obj t')), st') ∧
       props t' !! "z" = Some (VNum 0) ∧
       lookup_record st' c (currentBranch st') (VStr "x") ≫= (λ m, m !! "z") =
       lookup_record st c (currentBranch st) (VStr "x") ≫= (λ m, m !! "z")).
Proof.
  intros Hc. split; [|split].
  - intros o fc fid p c' b' i' <- Hp. rewrite stash_cases, Hc.
    destruct (is_undefined _); [done|]. cbn [snd].
    rewrite lookup_record_stash by done.
    destruct (decide _) as [(-> & -> & ->)|_]; [|done]. cbn.
    rewrite stash_props_lookup, decide_False by (by intros [? _]).
    by destruct (lookup_record _ _ _ _).
  - intros t fc fid <-. rewrite reassign_run. unfold reassign_result. rewrite Hc.
    destruct (is_undefined _); [by eexists _, _|].
    destruct (lookup_record _ _ _ _) as [m|]; [|by eexists _, _].
    eexists _, _. split; [done|]. intros p Hp. cbn in Hp.
    rewrite reassign_props_lookup, decide_False; [done|].
    intros [Hin [v Hv]]. destruct Hp as [Hp|Hp]; [done|congruence].
  - intros Hk Hd k fc <-.
    set (c := default k fc) in *.
    assert (Hrc : ∀ o, constructor_name o = k → resolved_class o fc = c).
    { intros o Ho. by rewrite resolved_class_default, Ho. }
    destruct (stash_then_reassign st cn (payload_xaz k) (target_xz k) fc None fc None)
      as (st' & Hs & Hb & Hr).
    { by rewrite Hrc. }
    { cbn. by rewrite Hk. }
    { by rewrite !Hrc. }
    { cbn. by rewrite Hk. }
    rewrite (bind_run _ _ _ _ _ Hs), (bind_run _ _ _ _ _ Hr).
    eexists _, _. split; [done|].
    assert (Hz : "z" ∉ dProps cn) by (rewrite Hd; done).
    split.
    + rewrite reassign_props_lookup, decide_False by (by intros [? _]). done.
    + rewrite stash_cases in Hs. rewrite Hrc, Hc in Hs by done.
      assert (Hid : resolved_id (payload_xaz k) cn None = VStr "x")
        by (cbn; by rewrite Hk).
      rewrite Hid in Hs. cbn [is_undefined] in Hs. injection Hs as <-.
      change (currentBranch (set_node _ _ st)) with (currentBranch st).
      rewrite lookup_record_stash, decide_True by done. cbn.
      rewrite stash_props_lookup, decide_False by (by intros [? _]).
      destruct (lookup_record st c (currentBranch st) (VStr "x")); [done|apply lookup_empty].
Qed.

Lemma untracked_witness :
  storage hero_registry_a !! "Hero" = Some hero_node_a ∧
  ∃ (t' : object) (st' : Registry),
    (let* s := stash (Obj (payload_xaz "Hero")) None None in
     let* r := reassign (Obj (target_xz "Hero")) None None in
     ret (s, r)) hero_registry_a =
    (Normal (true, (true, Obj t')), st') ∧
    props t' !! "z" = Some (VNum 0) ∧
    lookup_record st' "Hero" (currentBranch st') (VStr "x") ≫= (λ m, m !! "z") =
    lookup_record hero_registry_a "Hero" (currentBranch hero_registry_a) (VStr "x")
      ≫= (λ m, m !! "z").
Proof.
  split; [reflexivity|].
  destruct (untracked_never_stored_nor_restored hero_registry_a "Hero" hero_node_a eq_refl)
    as (_ & _ & Hs).
  apply (Hs eq_refl hero_node_a_dProps "Hero" None eq_refl).
Defined.

(** C10 (a stash that stores nothing still makes a hit).  For a
    registered class, a [stash] whose instance id resolves and whose
    payload defines none of the tracked properties returns [true]; after it
    the class has a pool for the current branch and a record for the id,
    which is the record there was, or an empty one when there was none; a
    [reassign] for the same class, branch and id then returns [true], and
    it leaves the target as it was when the record was created empty. *)
Theorem empty_stash_creates_hit (st : Registry) (o : object) (fc fid : option string)
    (cn : ClassNode) :
  storage st !! resolved_class o fc = Some cn →
  resolved_id o cn fid ≠ VUndefined →
  (∀ p, p ∈ dProps cn → prop_of o p = VUndefined) →
  ∃ (st' : Registry) (cn' : ClassNode),
    stash (Obj o) fc fid st = (Normal true, st') ∧
    currentBranch st' = currentBranch st ∧
    storage st' !! resolved_class o fc = Some cn' ∧
    is_Some (branchNodes cn' !! currentBranch st) ∧
    lookup_record st' (resolved_class o fc) (currentBranch st) (resolved_id o cn fid) =
      Some (default ∅ (lookup_record st (resolved_class o fc) (currentBranch st)
                         (resolved_id o cn fid))) ∧
    ∀ (t : object) (fc' fid' : option string),
      resolved_class t fc' = resolved_class o fc →
      resolved_id t cn fid' = resolved_id o cn fid →
      ∃ t' : object,
        reassign (Obj t) fc' fid' st' = (Normal (true, Obj t'), st') ∧
        (lookup_record st (resolved_class o fc) (currentBranch st)
           (resolved_id o cn fid) = None →
         t' = t).
Proof.
  intros Hc Hid Hu.
  assert (Hprops : ∀ m, stash_props o (dProps cn) m = m).
  { intros m. apply map_eq. intros p. rewrite stash_props_lookup.
    rewrite decide_False; [done|]. intros [Hin Hd]. by apply Hd, Hu. }
  eexists _, _. split; [by apply stash_run|]. split; [done|].
  split; [apply set_node_lookup|]. split.
  { unfold stash_node, stash_branches; cbn. rewrite lookup_insert_eq. by eexists. }
  split.
  { rewrite lookup_record_stash, decide_True by done. by rewrite Hprops. }
  intros t fc' fid' Hc' Hid'.
  destruct (stash_then_reassign st cn o t fc fid fc' fid' Hc Hid Hc' Hid')
    as (st' & Hs & _ & Hr).
  rewrite (stash_run _ _ _ _ _ Hc Hid) in Hs. injection Hs as <-.
  eexists. split; [exact Hr|]. intros Hnone.
  rewrite Hnone, Hprops. cbn [default from_option id].
  apply object_eq; [apply reassign_props_constructor|].
  apply map_eq. intros p. rewrite reassign_props_lookup, decide_False; [done|].
  intros [_ [v Hv]]. by rewrite lookup_empty in Hv.
Qed.

Lemma empty_stash_creates_hit_witness :
  storage hero_registry !! "Hero" = Some hero_node ∧
  ∃ (st' : Registry),
    stash (Obj empty_payload) (Some "Hero") (Some "x") hero_registry = (Normal true, st') ∧
    lookup_record st' "Hero" "*" (VStr "x") = Some ∅ ∧
    reassign (Obj (target_x "Hero")) None None st' =
      (Normal (true, Obj (target_x "Hero")), st').
Proof.
  split; [reflexivity|].
  destruct (empty_stash_creates_hit hero_registry empty_payload (Some "Hero") (Some "x")
              hero_node eq_refl) as (st' & cn' & Hs & _ & _ & _ & Hl & Hr).
  { discriminate. }
  { intros p Hp. apply hero_node_dProps in Hp as [-> | ->]; reflexivity. }
  exists st'. split; [exact Hs|]. split; [exact Hl|].
  destruct (Hr (target_x "Hero") None None eq_refl eq_refl) as (t' & Ht & Heq).
  rewrite Ht, (Heq eq_refl). reflexivity.
Defined.

(** * More of the code *)

(** ** [new Set(array)] *)

Lemma Set_add_elem (s : list string) (x p : string) :
  p ∈ Set_add s x ↔ p ∈ s ∨ p = x.
Proof.
  unfold Set_add. destruct (decide (x ∈ s)) as [Hin|Hnin].
  - split; [auto|]. intros [?| ->]; done.
  - rewrite elem_of_app, list_elem_of_singleton. done.
Qed.

Lemma Set_add_NoDup (s : list string) (x : string) : NoDup s → NoDup (Set_add s x).
Proof.
  intros Hs. unfold Set_add. destruct (decide (x ∈ s)) as [Hin|Hnin]; [done|].
  apply NoDup_app. split; [done|]. split; [|apply NoDup_singleton].
  intros y Hy Hy'. apply list_elem_of_singleton in Hy' as ->. done.
Qed.

Lemma foldl_Set_add_elem (a s : list string) (p : string) :
  p ∈ foldl Set_add s a ↔ p ∈ s ∨ p ∈ a.
Proof.
  revert s. induction a as [|x a IH]; intros s; cbn [foldl].
  - rewrite elem_of_nil. tauto.
  - rewrite IH, Set_add_elem, elem_of_cons. tauto.
Qed.

Lemma foldl_Set_add_NoDup (a s : list string) : NoDup s → NoDup (foldl Set_add s a).
Proof.
  revert s. induction a as [|x a IH]; intros s Hs; cbn [foldl]; [done|].
  by apply IH, Set_add_NoDup.
Qed.

Lemma new_Set_elem (a : list string) (p : string) : p ∈ new_Set a ↔ p ∈ a.
Proof. unfold new_Set. rewrite foldl_Set_add_elem, elem_of_nil. tauto. Qed.

Lemma new_Set_NoDup (a : list string) : NoDup (new_Set a).
Proof. apply foldl_Set_add_NoDup, NoDup_nil_2. Qed.

Lemma new_Set_nonempty (x : string) (a : list string) : new_Set (x :: a) ≠ [].
Proof.
  intros Hnil. assert (Hx : x ∈ new_Set (x :: a)) by (apply new_Set_elem; left).
  rewrite Hnil in Hx. by apply elem_of_nil in Hx.
Qed.

(** ** [registerClass], every case *)

Lemma registerClass_cases (subjectClass : classArg) (dprops : propsArg)
    (kp : option string) (fn : option (string → subject)) (st : Registry) :
  registerClass subjectClass dprops kp fn st =
    match class_name_of subjectClass with
    | None => (Abrupt TypeError, st)
    | Some name =>
        match storage st !! name, dprops with
        | None, PropsArray (x :: a) =>
            (Normal true, set_node name (new_ClassNode (new_Set (x :: a)) ∅ kp fn) st)
        | _, _ => (Normal false, st)
        end
    end.
Proof.
  unfold registerClass.
  destruct subjectClass as [name|[| |o]]; cbn [class_name_of]; try done.
  - rewrite (bind_run _ _ _ _ _ (eq_refl : ret name st = (Normal name, st))).
    rewrite (bind_run _ _ _ _ _ (storage_has_run _ _)).
    destruct (storage st !! name); [done|]. by destruct dprops as [|[|x a]|s].
  - rewrite (bind_run _ _ _ _ _
               (eq_refl : get_constructor_name (Obj o) st = (Normal (constructor_name o), st))).
    rewrite (bind_run _ _ _ _ _ (storage_has_run _ _)).
    destruct (storage st !! constructor_name o); [done|]. by destruct dprops as [|[|x a]|s].
Qed.

(** X1.  A first [registerClass] with a non-empty array, for a class named by
    a string or by an instance, returns [true] and files a node whose
    tracked properties are the members of the array without repetitions,
    with the key property given or ["id"], the callback given and no
    branch; the current branch and every other class are as before. *)
Theorem registerClass_first_registration (st : Registry) (subjectClass : classArg)
    (name x : string) (a : list string) (kp : option string)
    (fn : option (string → subject)) :
  class_name_of subjectClass = Some name →
  storage st !! name = None →
  ∃ (st' : Registry) (cn : ClassNode),
    registerClass subjectClass (PropsArray (x :: a)) kp fn st = (Normal true, st') ∧
    storage st' !! name = Some cn ∧
    NoDup (dProps cn) ∧
    (∀ p, p ∈ dProps cn ↔ p ∈ x :: a) ∧
    keyProp cn = default "id" kp ∧
    fnGetSourceInstanceByKey cn = fn ∧
    branchNodes cn = ∅ ∧
    currentBranch st' = currentBranch st ∧
    ∀ c, c ≠ name → storage st' !! c = storage st !! c.
Proof.
  intros Hn Hc. rewrite registerClass_cases, Hn, Hc.
  eexists _, _. split; [done|]. split; [apply set_node_lookup|].
  split; [apply new_Set_NoDup|]. split; [apply new_Set_elem|].
  split; [by destruct kp|]. split; [done|]. split; [done|]. split; [done|].
  intros c Hne. unfold set_node, with_storage; cbn. by rewrite lookup_insert_ne.
Qed.

Lemma registerClass_first_registration_witness :
  storage initial !! "Hero" = None ∧
  ∃ (st' : Registry) (cn : ClassNode),
    registerClass (ClassName "Hero") (PropsArray ["a"; "b"; "a"]) None None initial =
      (Normal true, st') ∧
    storage st' !! "Hero" = Some cn ∧
    NoDup (dProps cn) ∧
    (∀ p, p ∈ dProps cn ↔ p ∈ ["a"; "b"; "a"]) ∧
    keyProp cn = "id".
Proof.
  split; [reflexivity|].
  destruct (registerClass_first_registration initial (ClassName "Hero") "Hero" "a"
              ["b"; "a"] None None eq_refl eq_refl)
    as (st' & cn & Hr & Hl & Hnd & Hel & Hk & _).
  exists st', cn. repeat split; try assumption; apply Hel.
Defined.

(** X2.  Whatever its arguments, [registerClass] leaves every node that is
    in the store as it is, records included, and the current branch; it
    returns [true] exactly when the name is not registered and the
    properties are a non-empty array, and in every other case, also when
    it raises, the registry is unchanged. *)
Theorem registerClass_keeps_registrations (subjectClass : classArg) (dprops : propsArg)
    (kp : option string) (fn : option (string → subject)) (st : Registry) :
  (∀ c cn, storage st !! c = Some cn →
           storage (registerClass subjectClass dprops kp fn st).2 !! c = Some cn) ∧
  currentBranch (registerClass subjectClass dprops kp fn st).2 = currentBranch st ∧
  ((registerClass subjectClass dprops kp fn st).1 = Normal true ↔
   ∃ name x a, class_name_of subjectClass = Some name ∧
               storage st !! name = None ∧ dprops = PropsArray (x :: a)) ∧
  ((registerClass subjectClass dprops kp fn st).1 ≠ Normal true →
   (registerClass subjectClass dprops kp fn st).2 = st).
Proof.
  rewrite registerClass_cases.
  destruct (class_name_of subjectClass) as [name|] eqn:Hn; cbn.
  2:{ split; [done|]. split; [done|]. split; [|done].
      split; [done|]. by intros (? & ? & ? & ? & _). }
  destruct (storage st !! name) as [cn0|] eqn:Hc.
  { cbn. split; [done|]. split; [done|]. split; [|done].
    split; [done|]. intros (? & ? & ? & [= <-] & ? & _). congruence. }
  destruct dprops as [|[|x a]|s]; cbn;
    try (split; [done|]; split; [done|]; split; [|done];
         split; [done|]; by intros (? & ? & ? & _ & _ & ?)).
  split.
  { intros c cn Hcn. rewrite lookup_insert_ne; [done|]. intros <-. congruence. }
  split; [done|]. split; [|done]. split; [|done]. intros _. by exists name, x, a.
Qed.

(** ** [stash] of an object *)


(** X4.  [stash] of an object leaves the current branch, every other class,
    the registration of its own class, the pools of the other branches and
    every record but the one of its class, the current branch and its id
    as they were. *)
Theorem stash_frame (st : Registry) (o : object) (fc fid : option string) :
  currentBranch (stash (Obj o) fc fid st).2 = currentBranch st ∧
  (∀ c, c ≠ resolved_class o fc →
        storage (stash (Obj o) fc fid st).2 !! c = storage st !! c) ∧
  (∀ cn, storage st !! resolved_class o fc = Some cn →
     ∃ cn', storage (stash (Obj o) fc fid st).2 !! resolved_class o fc = Some cn' ∧
            dProps cn' = dProps cn ∧ keyProp cn' = keyProp cn ∧
            fnGetSourceInstanceByKey cn' = fnGetSourceInstanceByKey cn ∧
            ∀ b, b ≠ currentBranch st → branchNodes cn' !! b = branchNodes cn !! b) ∧
  (∀ c b i,
     (c ≠ resolved_class o fc ∨ b ≠ currentBranch st ∨
      ∀ cn, storage st !! resolved_class o fc = Some cn → i ≠ resolved_id o cn fid) →
     lookup_record (stash (Obj o) fc fid st).2 c b i = lookup_record st c b i).
Proof.
  rewrite stash_cases.
  destruct (storage st !! resolved_class o fc) as [cn|] eqn:Hc; cycle 1.
  { split; [done|]. split; [done|]. split; [done|]. done. }
  destruct (is_undefined (resolved_id o cn fid)) eqn:Hu.
  { split; [done|]. split; [done|]. split; [|done].
    intros cn' [= <-]. by exists cn. }
  cbn [snd]. split; [done|]. split.
  { intros c Hne. unfold set_node, with_storage; cbn. by rewrite lookup_insert_ne. }
  split.
  { intros cn' [= <-]. eexists. split; [apply set_node_lookup|].
    split; [done|]. split; [done|]. split; [done|].
    intros b Hb. unfold stash_node, stash_branches; cbn. by rewrite lookup_insert_ne. }
  intros c b i Hne. rewrite lookup_record_stash by done.
  rewrite decide_False; [done|]. intros (-> & -> & ->).
  destruct Hne as [?|[?|Hi]]; [done|done|]. by apply (Hi cn).
Qed.

Lemma stash_props_idem (o : object) (l : list string) (m : InstanceProps) :
  stash_props o l (stash_props o l m) = stash_props o l m.
Proof.
  apply map_eq. intros p. rewrite !stash_props_lookup.
  by destruct (decide _).
Qed.

Lemma stash_node_idem (o : object) (b : string) (i : value) (cn : ClassNode) :
  stash_node o b i (stash_node o b i cn) = stash_node o b i cn.
Proof.
  unfold stash_node, with_branchNodes; cbn. f_equal.
  unfold stash_branches. rewrite !lookup_insert_eq. cbn.
  rewrite !lookup_insert_eq. cbn.
  by rewrite stash_props_idem, !insert_insert_eq.
Qed.

(** X5.  Stashing the same object twice in a row gives the result and the
    registry that stashing it once gives. *)
Theorem stash_idempotent (st : Registry) (o : object) (fc fid : option string) :
  (let* _ := stash (Obj o) fc fid in stash (Obj o) fc fid) st = stash (Obj o) fc fid st.
Proof.
  rewrite (stash_cases st).
  destruct (storage st !! resolved_class o fc) as [cn|] eqn:Hc; cycle 1.
  { rewrite (bind_run _ _ _ _ _ (stash_unregistered _ _ _ _ Hc)).
    by apply stash_unregistered. }
  destruct (is_undefined (resolved_id o cn fid)) eqn:Hu.
  { apply is_undefined_spec in Hu.
    rewrite (bind_run _ _ _ _ _ (stash_no_id _ _ _ _ _ Hc Hu)).
    by apply (stash_no_id _ _ _ _ cn). }
  apply is_undefined_false in Hu.
  rewrite (bind_run _ _ _ _ _ (stash_run _ _ _ _ _ Hc Hu)).
  set (b := currentBranch st). set (i := resolved_id o cn fid) in *.
  set (c := resolved_class o fc) in *.
  rewrite (stash_run (set_node c (stash_node o b i cn) st) o fc fid (stash_node o b i cn)).
  - change (resolved_id o (stash_node o b i cn) fid) with i.
    change (currentBranch (set_node c (stash_node o b i cn) st)) with b.
    by rewrite stash_node_idem, set_node_set_node.
  - apply set_node_lookup.
  - done.
Qed.

(** ** [reassign] again, and after [stash] *)



Lemma hero_reachable : reachable hero_stashed.
Proof.
  exact (reachable_after (CallStash (Obj (payload_xab "Hero")) None None) _
           (reachable_after
              (CallRegisterClass (ClassName "Hero") (PropsArray ["a"; "b"]) None None) _
              reachable_initial)).
Qed.




Lemma props_lookup_defined (o : object) (p : string) :
  prop_of o p ≠ VUndefined → props o !! p = Some (prop_of o p).
Proof. unfold prop_of. by destruct (props o !! p). Qed.

(** X7.  For a registered class and an object whose id resolves, when the
    record held nothing for the tracked properties that are undefined on
    the object (as when there was no record), [stash] of the object followed
    by [reassign] into it returns [true] twice and leaves the object as it
    was. *)
Theorem stash_then_reassign_same_object (st : Registry) (o : object)
    (fc fid : option string) (cn : ClassNode) :
  storage st !! resolved_class o fc = Some cn →
  resolved_id o cn fid ≠ VUndefined →
  (∀ p m, p ∈ dProps cn → prop_of o p = VUndefined →
          lookup_record st (resolved_class o fc) (currentBranch st)
            (resolved_id o cn fid) = Some m →
          m !! p = None) →
  ∃ st',
    (let* s := stash (Obj o) fc fid in
     let* r := reassign (Obj o) fc fid in
     ret (s, r)) st = (Normal (true, (true, Obj o)), st').
Proof.
  intros Hc Hid Hold.
  destruct (stash_then_reassign st cn o o fc fid fc fid Hc Hid eq_refl eq_refl)
    as (st' & Hs & _ & Hr).
  rewrite (bind_run _ _ _ _ _ Hs), (bind_run _ _ _ _ _ Hr).
  exists st'. unfold ret. do 5 f_equal.
  apply object_eq; [apply reassign_props_constructor|].
  apply map_eq. intros p. rewrite reassign_props_lookup, stash_props_lookup.
  destruct (decide (p ∈ dProps cn)) as [Hp|Hp];
    [|rewrite decide_False; [done|]; by intros [? _]].
  destruct (decide (prop_of o p = VUndefined)) as [Hu|Hd].
  - rewrite (decide_False (P := _ ∧ prop_of _ _ ≠ _)) by (by intros [_ ?]).
    destruct (lookup_record st _ _ _) as [m|] eqn:Hm; cbn;
      [rewrite (Hold p m Hp Hu eq_refl)|rewrite lookup_empty];
      (rewrite decide_False; [done|]; by intros [_ [? ?]]).
  - rewrite (decide_True (P := _ ∧ prop_of _ _ ≠ _)) by done.
    rewrite decide_True by (split; [done|by eexists]).
    by rewrite props_lookup_defined.
Qed.

Lemma stash_then_reassign_same_object_witness :
  storage hero_registry !! "Hero" = Some hero_node ∧
  ∃ st',
    (let* s := stash (Obj (payload_xab "Hero")) None None in
     let* r := reassign (Obj (payload_xab "Hero")) None None in
     ret (s, r)) hero_registry =
    (Normal (true, (true, Obj (payload_xab "Hero"))), st').
Proof.
  split; [reflexivity|].
  apply (stash_then_reassign_same_object hero_registry (payload_xab "Hero") None None
           hero_node); [reflexivity|discriminate|].
  intros p m _ _ Hm. vm_compute in Hm. discriminate Hm.
Defined.

(** X8.  After a first registration, whatever the branch switched to, a
    [reassign] for the class returns [false] and leaves the target as it
    was. *)
Theorem fresh_class_misses (st : Registry) (name x : string) (a : list string)
    (kp : option string) (fn : option (string → subject)) (branch : option string)
    (t : object) (fc fid : option string) :
  storage st !! name = None →
  resolved_class t fc = name →
  ∃ st',
    (let* r := registerClass (ClassName name) (PropsArray (x :: a)) kp fn in
     let* _ := switch branch in
     let* miss := reassign (Obj t) fc fid in
     ret (r, miss)) st = (Normal (true, (false, Obj t)), st').
Proof.
  intros Hc Hn.
  rewrite (bind_run _ _ _ _ _ (registerClass_array _ _ _ _ _ _ Hc)).
  rewrite (bind_run _ _ _ _ _ (switch_run _ _)).
  set (cn := new_ClassNode (new_Set (x :: a)) ∅ kp fn).
  set (st1 := switched (default "*" branch) (set_node name cn st)).
  assert (Hmiss : reassign (Obj t) fc fid st1 = (Normal (false, Obj t), st1)).
  { apply (reassign_miss st1 t fc fid cn).
    - rewrite Hn. apply set_node_lookup.
    - rewrite Hn. unfold lookup_record, deref; cbn. rewrite lookup_insert_eq. done. }
  rewrite (bind_run _ _ _ _ _ Hmiss). by eexists.
Qed.

Lemma fresh_class_misses_witness :
  storage initial !! "Hero" = None ∧
  ∃ st',
    (let* r := registerClass (ClassName "Hero") (PropsArray ["a"]) None None in
     let* _ := switch (Some "B") in
     let* miss := reassign (Obj (target_x "Hero")) None None in
     ret (r, miss)) initial = (Normal (true, (false, Obj (target_x "Hero"))), st').
Proof.
  split; [reflexivity|].
  apply (fresh_class_misses initial "Hero" "a" [] None None (Some "B")
           (target_x "Hero") None None); reflexivity.
Defined.

(** ** [stash] of [undefined] and [null] *)

Lemma stash_ensure {A : Type} (k : option InstanceRef → M A) (c : string) (i : value)
    (cn : ClassNode) (st : Registry) :
  storage st !! c = Some cn →
  (let* hasBranch := branchNodes_has c (currentBranch st) in
   let* _ := (if negb hasBranch then branchNodes_set c (currentBranch st) ∅ else ret ()) in
   let* found := getInstance c i in
   let* _ := (if found is None then setInstance c i ∅ else ret ()) in
   let* instance := getInstance c i in
   k instance) st =
  k (Some {| ref_class := c; ref_branch := currentBranch st; ref_id := i |})
    (set_node c (ensured_node (currentBranch st) i cn) st).
Proof.
  intros Hc. set (b := currentBranch st).
  rewrite (bind_run _ _ _ _ _ (branchNodes_has_run _ _ _ Hc _)).
  unfold ensured_node, with_branchNodes.
  destruct (branchNodes cn !! b) as [pool|] eqn:Hb; cbn [negb mbind option_bind default].
  - rewrite (bind_run _ _ _ _ _ (eq_refl : ret () st = (Normal (), st))).
    rewrite (bind_run _ _ _ _ _ (getInstance_run _ _ _ Hc _ Hb _)).
    destruct (pool !! i) as [m|] eqn:Hm; cbn [default].
    + rewrite (bind_run _ _ _ _ _ (eq_refl : ret () st = (Normal (), st))).
      rewrite (bind_run _ _ _ _ _ (getInstance_run _ _ _ Hc _ Hb _)), Hm.
      fold b. f_equal. symmetry.
      rewrite (insert_id pool i m Hm), (insert_id _ b pool Hb), ClassNode_eta.
      by apply set_node_id.
    + rewrite (bind_run _ _ _ _ _ (setInstance_run _ _ _ Hc _ Hb _ _)). fold b.
      set (cn1 := with_branchNodes <[b:=<[i:=∅]> pool]> cn).
      set (st1 := set_node c cn1 st).
      assert (Hc1 : storage st1 !! c = Some cn1) by apply set_node_lookup.
      assert (Hb1 : branchNodes cn1 !! currentBranch st1 = Some (<[i:=∅]> pool))
        by apply lookup_insert_eq.
      rewrite (bind_run _ _ _ _ _ (getInstance_run _ _ _ Hc1 _ Hb1 _)).
      rewrite lookup_insert_eq.
      change (currentBranch st1) with b. done.
  - rewrite (bind_run _ _ _ _ _ (branchNodes_set_run _ _ _ Hc _ _)).
    set (cn1 := with_branchNodes <[b:=∅]> cn).
    set (st1 := set_node c cn1 st).
    assert (Hc1 : storage st1 !! c = Some cn1) by apply set_node_lookup.
    assert (Hb1 : branchNodes cn1 !! currentBranch st1 = Some ∅)
      by apply lookup_insert_eq.
    rewrite (bind_run _ _ _ _ _ (getInstance_run _ _ _ Hc1 _ Hb1 _)).
    rewrite (bind_run _ _ _ _ _ (setInstance_run _ _ _ Hc1 _ Hb1 _ _)).
    change (currentBranch st1) with b in *.
    set (cn2 := with_branchNodes <[b:=<[i:=∅]> ∅]> cn1).
    set (st2 := set_node c cn2 st1).
    assert (Hc2 : storage st2 !! c = Some cn2) by apply set_node_lookup.
    assert (Hb2 : branchNodes cn2 !! currentBranch st2 = Some (<[i:=∅]> ∅))
      by apply lookup_insert_eq.
    rewrite (bind_run _ _ _ _ _ (getInstance_run _ _ _ Hc2 _ Hb2 _)).
    rewrite lookup_insert_eq.
    change (currentBranch st2) with b.
    f_equal. unfold st2, st1. rewrite set_node_set_node. f_equal.
    unfold cn2, cn1, with_branchNodes; cbn. f_equal. by rewrite insert_insert_eq.
Qed.

Lemma stash_nullish_cases (t : subject) (fc fid : option string) (st : Registry) :
  is_nullish t = true →
  stash t fc fid st =
    match fc with
    | None => (Abrupt TypeError, st)
    | Some c =>
        match storage st !! c with
        | None => (Normal false, st)
        | Some cn =>
            match fid with
            | None => (Abrupt TypeError, st)
            | Some i =>
                (match dProps cn with [] => Normal true | _ :: _ => Abrupt TypeError end,
                 set_node c (ensured_node (currentBranch st) (VStr i) cn) st)
            end
        end
    end.
Proof.
  intros Ht. unfold stash. destruct fc as [c|]; cycle 1.
  { by destruct t. }
  rewrite (bind_run _ _ _ _ _ (eq_refl : ret c st = (Normal c, st))).
  rewrite (bind_run _ _ _ _ _ (storage_has_run _ _)).
  destruct (storage st !! c) as [cn|] eqn:Hc; [|done]. cbn [negb].
  rewrite (bind_run _ _ _ _ _ (storage_get_run _ _ _ Hc)).
  destruct fid as [i|]; cycle 1.
  { by destruct t. }
  rewrite (bind_run _ _ _ _ _ (eq_refl : ret (VStr i) st = (Normal (VStr i), st))).
  cbn [is_undefined].
  rewrite (bind_run _ _ _ _ _ (get_currentBranch_run _)).
  rewrite (stash_ensure _ _ _ _ _ Hc).
  destruct (dProps cn) as [|p l]; [done|]. by destruct t.
Qed.

Lemma stash_props_no_props (o : object) (l : list string) (m : InstanceProps) :
  (∀ p, p ∈ l → prop_of o p = VUndefined) → stash_props o l m = m.
Proof.
  intros Hu. apply map_eq. intros p. rewrite stash_props_lookup.
  rewrite decide_False; [done|]. intros [Hin Hd]. by apply Hd, Hu.
Qed.

Lemma ensured_node_stash_node (o : object) (b : string) (i : value) (cn : ClassNode) :
  (∀ p, p ∈ dProps cn → prop_of o p = VUndefined) →
  stash_node o b i cn = ensured_node b i cn.
Proof.
  intros Hu. unfold stash_node, ensured_node, with_branchNodes, stash_branches.
  by rewrite stash_props_no_props.
Qed.

Lemma lookup_record_ensured (st : Registry) (c : string) (cn : ClassNode)
    (b : string) (i : value) (c' b' : string) (i' : value) :
  storage st !! c = Some cn →
  lookup_record (set_node c (ensured_node b i cn) st) c' b' i' =
    if decide (c' = c ∧ b' = b ∧ i' = i)
    then Some (default ∅ (lookup_record st c b i))
    else lookup_record st c' b' i'.
Proof.
  intros Hc.
  rewrite <- (ensured_node_stash_node (obj_of "" [])) by done.
  rewrite lookup_record_stash by done.
  by rewrite stash_props_no_props.
Qed.

(** X9.  [stash] of [undefined] or [null] under a forced class and id, for a
    registered class, raises a [TypeError] in its loop, after it has made
    the pool of the current branch and a record for the id: the record is
    the one there was or an empty one, every other record is as before, and
    a [reassign] for that id that missed before the call hits after it, and
    writes nothing. *)
Theorem stash_of_nullish_leaves_record (st : Registry) (t : subject) (c i : string)
    (cn : ClassNode) :
  is_nullish t = true →
  storage st !! c = Some cn →
  dProps cn ≠ [] →
  ∃ st',
    stash t (Some c) (Some i) st = (Abrupt TypeError, st') ∧
    lookup_record st' c (currentBranch st) (VStr i) =
      Some (default ∅ (lookup_record st c (currentBranch st) (VStr i))) ∧
    (∀ c' b' i', (c', b', i') ≠ (c, currentBranch st, VStr i) →
                 lookup_record st' c' b' i' = lookup_record st c' b' i') ∧
    ∀ o : object,
      lookup_record st c (currentBranch st) (VStr i) = None →
      reassign (Obj o) (Some c) (Some i) st = (Normal (false, Obj o), st) ∧
      reassign (Obj o) (Some c) (Some i) st' = (Normal (true, Obj o), st').
Proof.
  intros Ht Hc Hd. rewrite stash_nullish_cases, Hc by done.
  destruct (dProps cn) as [|p l] eqn:Hl; [done|].
  eexists. split; [done|]. split.
  { rewrite lookup_record_ensured by done. by rewrite decide_True. }
  split.
  { intros c' b' i' Hne. rewrite lookup_record_ensured by done.
    rewrite decide_False; [done|]. intros (-> & -> & ->). done. }
  intros o Hnone. split.
  - by apply (reassign_miss st o (Some c) (Some i) cn).
  - rewrite (reassign_hit _ o (Some c) (Some i) (ensured_node (currentBranch st) (VStr i) cn) ∅).
    + do 4 f_equal. apply object_eq; [apply reassign_props_constructor|].
      apply map_eq. intros q. rewrite reassign_props_lookup, decide_False; [done|].
      intros [_ [v Hv]]. by rewrite lookup_empty in Hv.
    + apply set_node_lookup.
    + done.
    + cbn [resolved_class resolved_id].
      change (currentBranch (set_node _ _ st)) with (currentBranch st).
      rewrite lookup_record_ensured by done. rewrite decide_True by done.
      by rewrite Hnone.
Qed.

Lemma stash_of_nullish_leaves_record_witness :
  storage hero_registry !! "Hero" = Some hero_node ∧
  ∃ st',
    stash SNull (Some "Hero") (Some "x") hero_registry = (Abrupt TypeError, st') ∧
    lookup_record st' "Hero" "*" (VStr "x") = Some ∅ ∧
    reassign (Obj (target_x "Hero")) (Some "Hero") (Some "x") st' =
      (Normal (true, Obj (target_x "Hero")), st').
Proof.
  split; [reflexivity|].
  destruct (stash_of_nullish_leaves_record hero_registry SNull "Hero" "x" hero_node
              eq_refl eq_refl) as (st' & Hs & Hl & _ & Hr).
  { discriminate. }
  exists st'. split; [exact Hs|]. split; [exact Hl|].
  apply (Hr (target_x "Hero")). reflexivity.
Defined.

(** ** [stashByKey] *)

Lemma stashByKey_cases (c id : string) (fp : subject) (st : Registry) :
  stashByKey c id fp st =
    match storage st !! c with
    | None => (Normal (VBool false), st)
    | Some cn =>
        match by_key_payload cn id fp with
        | None => (Abrupt TypeError, st)
        | Some payload =>
            (match (stash payload (Some c) (Some id) st).1 with
             | Normal _ => Normal VUndefined
             | Abrupt e => Abrupt e
             end,
             (stash payload (Some c) (Some id) st).2)
        end
    end.
Proof.
  unfold stashByKey.
  rewrite (bind_run _ _ _ _ _ (storage_has_run _ _)).
  destruct (storage st !! c) as [cn|] eqn:Hc; [|done]. cbn [negb].
  rewrite (bind_run _ _ _ _ _ (storage_get_run _ _ _ Hc)).
  assert (Hk : ∀ payload,
    (let* _ := stash payload (Some c) (Some id) in ret VUndefined) st =
    (match (stash payload (Some c) (Some id) st).1 with
     | Normal _ => Normal VUndefined
     | Abrupt e => Abrupt e
     end, (stash payload (Some c) (Some id) st).2)).
  { intros payload. unfold bind.
    by destruct (stash payload (Some c) (Some id) st) as [[?|?] ?]. }
  destruct fp as [| |o]; cbn [by_key_payload].
  - unfold call_fnGetSourceInstanceByKey.
    destruct (fnGetSourceInstanceByKey cn) as [f|]; cbn [fmap option_fmap option_map]; [|done].
    rewrite (bind_run _ _ _ _ _ (eq_refl : ret (f id) st = (Normal (f id), st))).
    apply Hk.
  - rewrite (bind_run _ _ _ _ _ (eq_refl : ret SNull st = (Normal SNull, st))). apply Hk.
  - rewrite (bind_run _ _ _ _ _ (eq_refl : ret (Obj o) st = (Normal (Obj o), st))).
    apply Hk.
Qed.

(** X10.  For a registered class, [stashByKey] with an object, given or
    found by the callback of the class, stores it under the id of the call,
    whatever its key property holds: a [reassign] into a target whose key
    property is that id as a string then returns [true], sets every tracked
    property that is defined on the object and leaves the properties that
    are not tracked. *)
Theorem stashByKey_then_reassign (st : Registry) (c id : string) (fp : subject)
    (cn : ClassNode) (o t : object) (fc : option string) :
  storage st !! c = Some cn →
  (fp = Obj o ∨
   fp = SUndefined ∧ ∃ f, fnGetSourceInstanceByKey cn = Some f ∧ f id = Obj o) →
  resolved_class t fc = c →
  prop_of t (keyProp cn) = VStr id →
  ∃ (t' : object) (st' : Registry),
    (let* v := stashByKey c id fp in
     let* r := reassign (Obj t) fc None in
     ret (v, r)) st = (Normal (VUndefined, (true, Obj t')), st') ∧
    (∀ p, p ∈ dProps cn → prop_of o p ≠ VUndefined →
          props t' !! p = Some (prop_of o p)) ∧
    (∀ p, p ∉ dProps cn → props t' !! p = props t !! p).
Proof.
  intros Hc Hfp Ht Hk.
  assert (Hp : by_key_payload cn id fp = Some (Obj o)).
  { destruct Hfp as [->|(-> & f & Hf & Hfo)]; [done|]. cbn. by rewrite Hf, <- Hfo. }
  destruct (stash_then_reassign st cn o t (Some c) (Some id) fc None)
    as (st' & Hs & _ & Hr); [done|done|done|done|].
  assert (Hbk : stashByKey c id fp st = (Normal VUndefined, st')).
  { by rewrite stashByKey_cases, Hc, Hp, Hs. }
  rewrite (bind_run _ _ _ _ _ Hbk), (bind_run _ _ _ _ _ Hr).
  eexists _, _. split; [done|]. split.
  - intros p Hin Hd. rewrite reassign_props_lookup, stash_props_lookup.
    rewrite (decide_True (P := _ ∧ prop_of _ _ ≠ _)) by done.
    by rewrite decide_True.
  - intros p Hnin. rewrite reassign_props_lookup, decide_False; [done|]. by intros [? _].
Qed.

Lemma stashByKey_then_reassign_witness :
  storage hero_registry !! "Hero" = Some hero_node ∧
  ∃ (t' : object) (st' : Registry),
    (let* v := stashByKey "Hero" "x" (Obj (obj_of "Object" [("a", VNum 1)])) in
     let* r := reassign (Obj (target_x "Hero")) None None in
     ret (v, r)) hero_registry = (Normal (VUndefined, (true, Obj t')), st') ∧
    props t' !! "a" = Some (VNum 1) ∧
    props t' !! "id" = Some (VStr "x").
Proof.
  split; [reflexivity|].
  destruct (stashByKey_then_reassign hero_registry "Hero" "x"
              (Obj (obj_of "Object" [("a", VNum 1)])) hero_node
              (obj_of "Object" [("a", VNum 1)]) (target_x "Hero") None eq_refl)
    as (t' & st' & Hrun & Htracked & Hrest);
    [left; reflexivity|reflexivity|reflexivity|].
  exists t', st'. split; [exact Hrun|]. split.
  - apply (Htracked "a"); [apply hero_node_dProps; by left|discriminate].
  - rewrite (Hrest "id"); [reflexivity|].
    intros Hin. apply hero_node_dProps in Hin as [Hin|Hin]; discriminate Hin.
Defined.

(** ** What every call keeps *)

Lemma stash_state (t : subject) (fc fid : option string) (st : Registry) :
  (stash t fc fid st).2 = st ∨
  ∃ c cn o i,
    storage st !! c = Some cn ∧ i ≠ VUndefined ∧
    (stash t fc fid st).2 = set_node c (stash_node o (currentBranch st) i cn) st.
Proof.
  destruct t as [| |o].
  - rewrite stash_nullish_cases by done. destruct fc as [c|]; [|by left].
    destruct (storage st !! c) as [cn|] eqn:Hc; [|by left].
    destruct fid as [i|]; [|by left]. right. exists c, cn, (obj_of "" []), (VStr i).
    split; [done|]. split; [done|]. cbn [snd]. by rewrite ensured_node_stash_node.
  - rewrite stash_nullish_cases by done. destruct fc as [c|]; [|by left].
    destruct (storage st !! c) as [cn|] eqn:Hc; [|by left].
    destruct fid as [i|]; [|by left]. right. exists c, cn, (obj_of "" []), (VStr i).
    split; [done|]. split; [done|]. cbn [snd]. by rewrite ensured_node_stash_node.
  - rewrite stash_cases.
    destruct (storage st !! resolved_class o fc) as [cn|] eqn:Hc; [|by left].
    destruct (is_undefined (resolved_id o cn fid)) eqn:Hu; [by left|].
    apply is_undefined_false in Hu. right. by exists (resolved_class o fc), cn, o, (resolved_id o cn fid).
Qed.

Lemma after_cases (c : call) (st : Registry) :
  after c st = st ∨
  (∃ b, after c st = switched b st) ∨
  (∃ name x a kp fn,
     storage st !! name = None ∧
     after c st = set_node name (new_ClassNode (new_Set (x :: a)) ∅ kp fn) st) ∨
  (∃ k cn o i,
     storage st !! k = Some cn ∧ i ≠ VUndefined ∧
     after c st = set_node k (stash_node o (currentBranch st) i cn) st).
Proof.
  destruct c as [cls dprops kp fn|branch|t fc fid|t fc fid|k id fp]; cbn [after].
  - rewrite registerClass_cases.
    destruct (class_name_of cls) as [name|]; [|by left].
    destruct (storage st !! name) eqn:Hc; [by left|].
    destruct dprops as [|[|x a]|s]; try by left.
    right. right. left. by exists name, x, a, kp, fn.
  - rewrite switch_run. right. left. by eexists.
  - left. apply read_only_reassign.
  - destruct (stash_state t fc fid st) as [?|?]; [by left|by right; right; right].
  - rewrite stashByKey_cases.
    destruct (storage st !! k) as [cn|]; [|by left].
    destruct (by_key_payload cn id fp) as [payload|]; [|by left]. cbn [snd].
    destruct (stash_state payload (Some k) (Some id) st) as [?|?];
      [by left|by right; right; right].
Qed.

Lemma well_formed_initial : well_formed initial.
Proof. intros c cn Hc. cbn in Hc. by rewrite lookup_empty in Hc. Qed.

Lemma well_formed_switched (b : string) (st : Registry) :
  well_formed st → well_formed (switched b st).
Proof. done. Qed.

Lemma well_formed_registered (st : Registry) (name x : string) (a : list string)
    (kp : option string) (fn : option (string → subject)) :
  well_formed st →
  well_formed (set_node name (new_ClassNode (new_Set (x :: a)) ∅ kp fn) st).
Proof.
  intros Hwf c cn Hc. unfold set_node, with_storage in Hc; cbn [storage] in Hc.
  destruct (decide (c = name)) as [->|Hne].
  - rewrite lookup_insert_eq in Hc. injection Hc as <-.
    unfold new_ClassNode; cbn [dProps branchNodes].
    split; [apply new_Set_nonempty|]. split; [apply new_Set_NoDup|].
    intros b pool i m Hb. by rewrite lookup_empty in Hb.
  - rewrite lookup_insert_ne in Hc by done. by apply (Hwf c).
Qed.

Lemma well_formed_stashed (st : Registry) (k : string) (cn : ClassNode) (o : object)
    (b : string) (i : value) :
  storage st !! k = Some cn →
  i ≠ VUndefined →
  well_formed st →
  well_formed (set_node k (stash_node o b i cn) st).
Proof.
  intros Hk Hi Hwf c cn' Hc. unfold set_node, with_storage in Hc; cbn [storage] in Hc.
  destruct (decide (c = k)) as [->|Hne];
    [|rewrite lookup_insert_ne in Hc by done; by apply (Hwf c)].
  rewrite lookup_insert_eq in Hc. injection Hc as <-.
  destruct (Hwf k cn Hk) as (Hne & Hnd & Hrec).
  split; [done|]. split; [done|].
  intros b' pool i' m Hb Hm. cbn in Hb. unfold stash_branches in Hb.
  destruct (decide (b' = b)) as [->|Hb'];
    [|rewrite lookup_insert_ne in Hb by done; by apply (Hrec b' pool)].
  rewrite lookup_insert_eq in Hb. injection Hb as <-.
  destruct (decide (i' = i)) as [->|Hi'].
  - rewrite lookup_insert_eq in Hm. injection Hm as <-. split; [done|].
    intros p v Hv. rewrite stash_props_lookup in Hv.
    destruct (decide _) as [[Hin Hd]|_] in Hv; [by injection Hv as <-|].
    destruct (branchNodes cn !! b) as [pool|] eqn:Hpool; cbn in Hv;
      [|by rewrite lookup_empty in Hv].
    destruct (pool !! i) as [m|] eqn:Hm; cbn in Hv; [|by rewrite lookup_empty in Hv].
    by apply (Hrec b pool i m Hpool Hm).
  - rewrite lookup_insert_ne in Hm by done.
    destruct (branchNodes cn !! b) as [pool|] eqn:Hpool; cbn in Hm;
      [|by rewrite lookup_empty in Hm].
    by apply (Hrec b pool).
Qed.

Lemma well_formed_after (c : call) (st : Registry) :
  well_formed st → well_formed (after c st).
Proof.
  intros Hwf.
  destruct (after_cases c st)
    as [->|[[b ->]|[(name & x & a & kp & fn & Hn & ->)|(k & cn & o & i & Hk & Hi & ->)]]].
  - done.
  - by apply well_formed_switched.
  - by apply well_formed_registered.
  - by apply well_formed_stashed.
Qed.

(** X11.  In every registry that calls of the five operations reach from
    the initial one, with any arguments and whether they return or raise,
    the tracked properties of every class are non-empty and without
    repetitions, no record sits under an undefined id, and every stored
    entry is a tracked property of its class with a defined value. *)
Theorem reachable_well_formed (st : Registry) : reachable st → well_formed st.
Proof.
  induction 1 as [|c st _ IH]; [apply well_formed_initial|by apply well_formed_after].
Qed.

Lemma reachable_well_formed_witness : reachable hero_stashed ∧ well_formed hero_stashed.
Proof. split; [exact hero_reachable|]. apply (reachable_well_formed _ hero_reachable). Defined.




(** X14.  In a reachable registry, [reassign] into an object leaves each
    property as it was or sets it, for a tracked property of the class, to
    a value that is not [undefined]. *)
Theorem reassign_writes_defined_values (st : Registry) (o : object)
    (fc fid : option string) :
  reachable st →
  ∃ (b : bool) (o' : object),
    reassign (Obj o) fc fid st = (Normal (b, Obj o'), st) ∧
    ∀ p, props o' !! p = props o !! p ∨
         ∃ cn v, storage st !! resolved_class o fc = Some cn ∧ p ∈ dProps cn ∧
                 props o' !! p = Some v ∧ v ≠ VUndefined.
Proof.
  intros Hreach.
  assert (Hwf : well_formed st).
  { induction Hreach as [|c st _ IH]; [apply well_formed_initial|by apply well_formed_after]. }
  rewrite reassign_run. unfold reassign_result.
  destruct (storage st !! resolved_class o fc) as [cn|] eqn:Hc;
    [|exists false, o; split; [done|]; by left].
  destruct (is_undefined (resolved_id o cn fid));
    [exists false, o; split; [done|]; by left|].
  destruct (lookup_record st _ _ _) as [m|] eqn:Hm;
    [|exists false, o; split; [done|]; by left].
  eexists _, _. split; [done|]. intros p.
  rewrite reassign_props_lookup.
  destruct (decide _) as [[Hin [v Hv]]|_]; [|by left]. right. exists cn, v.
  split; [done|]. split; [done|]. split; [done|].
  unfold lookup_record, deref in Hm. cbn in Hm. rewrite Hc in Hm. cbn in Hm.
  destruct (branchNodes cn !! currentBranch st) as [pool|] eqn:Hb; [|done]. cbn in Hm.
  destruct (Hwf _ _ Hc) as (_ & _ & Hrec).
  destruct (Hrec _ _ _ _ Hb Hm) as [_ Hent]. by apply (Hent p v).
Qed.

Lemma reassign_writes_defined_values_witness :
  reachable hero_stashed ∧
  ∃ (b : bool) (o' : object),
    reassign (Obj (target_x "Hero")) None None hero_stashed =
      (Normal (b, Obj o'), hero_stashed) ∧
    (props o' !! "a" = props (target_x "Hero") !! "a" ∨
     ∃ cn v, storage hero_stashed !! "Hero" = Some cn ∧ "a" ∈ dProps cn ∧
             props o' !! "a" = Some v ∧ v ≠ VUndefined).
Proof.
  split; [exact hero_reachable|].
  destruct (reassign_writes_defined_values hero_stashed (target_x "Hero") None None
              hero_reachable) as (b & o' & Hr & Hp).
  exists b, o'. split; [exact Hr|]. apply (Hp "a").
Defined.

Lemma lookup_record_unregistered (st : Registry) (k b : string) (i : value) :
  storage st !! k = None → lookup_record st k b i = None.
Proof. intros Hk. unfold lookup_record, deref; cbn. by rewrite Hk. Qed.

Lemma lookup_record_registered (st : Registry) (name : string) (l : list string)
    (kp : option string) (fn : option (string → subject)) (k b : string) (i : value) :
  storage st !! name = None →
  lookup_record (set_node name (new_ClassNode l ∅ kp fn) st) k b i = lookup_record st k b i.
Proof.
  intros Hn. rewrite lookup_record_set_node.
  destruct (decide (k = name)) as [->|Hne]; [|done].
  by rewrite lookup_record_unregistered.
Qed.



(** X16.  No call removes a record, nor an entry of a record: a record that
    is in the store is still there after any call, with every property
    name it had. *)
Theorem store_only_grows (c : call) (st : Registry) (k b : string) (i : value)
    (m : InstanceProps) :
  lookup_record st k b i = Some m →
  ∃ m', lookup_record (after c st) k b i = Some m' ∧
        ∀ p, is_Some (m !! p) → is_Some (m' !! p).
Proof.
  intros Hm.
  destruct (after_cases c st)
    as [->|[[b' ->]|[(name & x & a & kp & fn & Hn & ->)|(k' & cn & o & i' & Hk & Hi & ->)]]].
  - by exists m.
  - by exists m.
  - exists m. by rewrite lookup_record_registered.
  - rewrite lookup_record_stash by done.
    destruct (decide _) as [(-> & -> & ->)|_]; [|by exists m].
    eexists. split; [done|]. intros p Hp. rewrite Hm. cbn.
    rewrite stash_props_lookup. by destruct (decide _).
Qed.

Lemma store_only_grows_witness :
  (∃ m, lookup_record hero_stashed "Hero" "*" (VStr "x") = Some m ∧ is_Some (m !! "b")) ∧
  ∃ m', lookup_record
          (after (CallStash (Obj (payload_xa "Hero")) None None) hero_stashed)
          "Hero" "*" (VStr "x") = Some m' ∧
        is_Some (m' !! "b").
Proof.
  assert (Hm : ∃ m, lookup_record hero_stashed "Hero" "*" (VStr "x") = Some m ∧
                    m !! "b" = Some (VNum 2)).
  { eexists. split; vm_compute; reflexivity. }
  destruct Hm as (m & Hm & Hb). split; [exists m; split; [exact Hm|by eexists]|].
  destruct (store_only_grows (CallStash (Obj (payload_xa "Hero")) None None)
              hero_stashed "Hero" "*" (VStr "x") m Hm) as (m' & Hm' & Hgrow).
  exists m'. split; [exact Hm'|]. apply Hgrow. by eexists.
Defined.

(** ** The decorator and the base class *)

Lemma Mixin_constructor_run (mx : Mixin) (this : object) (st : Registry) :
  Mixin_constructor mx this st =
    (Normal (set_field this watchdog (VNum 0)),
     match storage st !! constructor_name this, _dProps mx with
     | None, x :: a =>
         set_node (constructor_name this)
           (new_ClassNode (new_Set (x :: a)) ∅ (Some (_keyProp mx))
              (_fnGetSourceInstanceByKey mx)) st
     | _, _ => st
     end).
Proof.
  unfold Mixin_constructor, bind. rewrite registerClass_cases. cbn [class_name_of set_field constructor_name].
  destruct (storage st !! constructor_name this); [done|]. by destruct (_dProps mx).
Qed.

Lemma construction_keeps_first_registration (mx : Mixin) (this : object)
    (st : Registry) (cn : ClassNode) :
  storage st !! constructor_name this = Some cn →
  Mixin_constructor mx this st = (Normal (set_field this watchdog (VNum 0)), st).
Proof. intros Hc. by rewrite Mixin_constructor_run, Hc. Qed.




(** X17.  When two classes made by the mixin have constructors of the same
    name, constructing an instance of the first registers its
    configuration and constructing an instance of the second changes
    nothing: the tracked properties, key property and callback of the first
    stay in force under the name. *)
Theorem same_name_shares_registration (mx1 mx2 : Mixin) (this1 this2 : object)
    (st : Registry) (x : string) (a : list string) :
  storage st !! constructor_name this1 = None →
  constructor_name this2 = constructor_name this1 →
  _dProps mx1 = x :: a →
  ∃ (st' : Registry) (cn : ClassNode),
    (let* _ := Mixin_constructor mx1 this1 in Mixin_constructor mx2 this2) st =
      (Normal (set_field this2 watchdog (VNum 0)), st') ∧
    st' = (Mixin_constructor mx1 this1 st).2 ∧
    storage st' !! constructor_name this2 = Some cn ∧
    (∀ p, p ∈ dProps cn ↔ p ∈ _dProps mx1) ∧
    keyProp cn = _keyProp mx1 ∧
    fnGetSourceInstanceByKey cn = _fnGetSourceInstanceByKey mx1.
Proof.
  intros Hc Hn Hd.
  rewrite (bind_run _ _ _ _ _ (Mixin_constructor_run _ _ _)).
  rewrite !Mixin_constructor_run, Hc, Hd, Hn. cbn [snd].
  rewrite set_node_lookup. eexists _, _. split; [done|]. split; [done|].
  split; [apply set_node_lookup|]. split; [apply new_Set_elem|]. done.
Qed.

Lemma same_name_shares_registration_witness :
  storage initial !! "Hero" = None ∧
  ∃ (st' : Registry) (cn : ClassNode),
    (let* _ := Mixin_constructor hero_mixin (hero_component "k1" 1) in
     Mixin_constructor
       {| _dProps := ["z"]; _keyProp := "id"; _fnGetSourceInstanceByKey := None |}
       (hero_component "k2" 2)) initial =
      (Normal (set_field (hero_component "k2" 2) watchdog (VNum 0)), st') ∧
    storage st' !! "Hero" = Some cn ∧
    (∀ p, p ∈ dProps cn ↔ p ∈ ["a"; "b"]) ∧
    keyProp cn = "statefuldKey".
Proof.
  split; [reflexivity|].
  destruct (same_name_shares_registration hero_mixin
              {| _dProps := ["z"]; _keyProp := "id"; _fnGetSourceInstanceByKey := None |}
              (hero_component "k1" 1) (hero_component "k2" 2) initial "a" ["b"]
              eq_refl eq_refl eq_refl)
    as (st' & cn & Hrun & _ & Hc & Hd & Hk & _).
  by exists st', cn.
Defined.




